(** * ModelBuilder (model/builder.py): a shallow embedding

    The Python class [ModelBuilder] wires subclass-supplied callbacks into
    the estimator life cycle of the host framework.  This development
    embeds the class method by method:

    - framework objects (tensors, ops, datasets) are symbolic terms that
      record which framework call built them;
    - the default graph (collections, control-dependency stack, global
      step) is explicit state;
    - Python exceptions are an error outcome, threaded by a small
      state-and-error monad [M];
    - a builder is a record of the methods a subclass may override; the
      remaining methods are functions over that record.

    What the framework itself answers (session runs, checkpoints, the
    estimator's results) is not defined by this repository: it is taken as
    a parameter, the record [Env].  Line numbers refer to
    [model/builder.py]. *)

From Stdlib Require Import Ascii String List ZArith Bool Lia.
From stdpp Require Import base option list strings gmap.

Set Warnings "-register-all".

Local Open Scope string_scope.
Local Open Scope Z_scope.
Local Open Scope list_scope.

(** ** Framework objects as symbolic terms *)

(** Structure of one dataset element: a tensor, or a nested tuple or dict
    of tensors. *)
Inductive shape : Type :=
| SLeaf
| STuple (l : list shape)
| SDict (l : list (string * shape)).

(** [tf.data.Dataset] values: the source supplied by the subclass and the
    three transformations the builder applies. *)
Inductive dataset : Type :=
| DSource (name : string) (element : shape)
| DShuffle (buffer_size : Z) (d : dataset)
| DRepeat (count : option Z) (d : dataset)
| DBatch (batch_size : Z) (d : dataset).

Inductive tensor : Type :=
| TSym (name : string)
| TApply (fn : string) (inputs : list tensor)
| TAdd (a b : tensor)
| TAddN (inputs : list tensor)
| TNext (d : dataset) (path : list nat).

Inductive op : Type :=
| Op (name : string) (inputs : list tensor) (control_inputs : list op).

Definition op_control_inputs (o : op) : list op :=
  match o with Op _ _ c => c end.

(** Python values that travel through the builder. *)
Inductive value : Type :=
| VNone
| VStr (s : string)
| VTensor (t : tensor)
| VOp (o : op)
| VTuple (l : list value)
| VDict (l : list (string * value)).

(** What [sess.run] hands back: arrays in the structure of the fetches.
    An array is named by the run that produced it and the tensor it is
    the value of. *)
Inductive data : Type :=
| DataNone
| DataArray (step : nat) (t : tensor)
| DataTuple (l : list data)
| DataDict (l : list (string * data)).

(** ** Exceptions and outcomes *)

Inductive exn : Type :=
| NotImplementedError (msg : string)
| ValueError (msg : string)
| AttributeError (msg : string)
| KeyError (key : string)
| TypeError (msg : string)
| UnboundLocalError (name : string)
| OutOfRangeError.

Inductive outcome (A : Type) : Type :=
| Ok (a : A)
| Raise (e : exn)
| OutOfFuel.
Arguments Ok {A} a.
Arguments Raise {A} e.
Arguments OutOfFuel {A}.

(** ** The default graph *)

Record Graph : Type := mkGraph {
  regularization_losses : list tensor;
  update_ops : list op;
  summaries : list (string * string * tensor);
  global_step : option tensor;
  control_stack : list (list op)
}.

Definition empty_graph : Graph := mkGraph [] [] [] None [].

Definition add_summary (family name : string) (t : tensor) (g : Graph) : Graph :=
  mkGraph (regularization_losses g) (update_ops g)
          (summaries g ++ [(family, name, t)]) (global_step g) (control_stack g).

Definition set_global_step (t : tensor) (g : Graph) : Graph :=
  mkGraph (regularization_losses g) (update_ops g) (summaries g) (Some t)
          (control_stack g).

Definition set_control_stack (st : list (list op)) (g : Graph) : Graph :=
  mkGraph (regularization_losses g) (update_ops g) (summaries g)
          (global_step g) st.

(** Graph-building code supplied by a subclass: it may read and extend the
    default graph, and it may raise. *)
Definition Cb (A : Type) : Type := Graph → outcome A * Graph.

(** ** The builder's world: default graph, call log, session clock *)

Record Estimator : Type := mkEstimator {
  model_fn : string;
  est_model_dir : string;
  est_config : value
}.

Inductive Call : Type :=
| Method (name : string) (args : list value)
| Vis (name : string) (args : list data)
| EstimatorCall (entry : string) (est : Estimator) (input_fn : string)
                (kwargs : list (string * value))
| SaverRestore (save_path : value)
| SessionRun (fetches : list value).

Record World : Type := mkWorld {
  graph : Graph;
  calls : list Call;
  sess_steps : nat
}.

Definition set_graph (g : Graph) (w : World) : World :=
  mkWorld g (calls w) (sess_steps w).

Definition M (A : Type) : Type := World → outcome A * World.

Global Instance M_ret : MRet M := λ A a w, (Ok a, w).

Global Instance M_bind : MBind M := λ A B f m w,
  match m w with
  | (Ok a, w') => f a w'
  | (Raise e, w') => (Raise e, w')
  | (OutOfFuel, w') => (OutOfFuel, w')
  end.

Definition raise {A : Type} (e : exn) : M A := λ w, (Raise e, w).

(** An outcome computed without touching the world. *)
Definition answer {A : Type} (r : outcome A) : M A := λ w, (r, w).

Definition log (c : Call) : M () :=
  λ w, (Ok (), mkWorld (graph w) (calls w ++ [c]) (sess_steps w)).

(** Run graph-building code on the current default graph. *)
Definition lift {A : Type} (c : Cb A) : M A := λ w,
  let '(r, g) := c (graph w) in (r, set_graph g w).

(** ** Framework calls on the default graph *)

Definition tf_get_collection_REGULARIZATION_LOSSES : M (list tensor) :=
  λ w, (Ok (regularization_losses (graph w)), w).

Definition tf_get_collection_UPDATE_OPS : M (list op) :=
  λ w, (Ok (update_ops (graph w)), w).

Definition tf_summary_scalar (name : string) (t : tensor) (family : string) : M () :=
  λ w, (Ok (), set_graph (add_summary family name t (graph w)) w).

Definition tf_add_n (l : list tensor) : tensor := TAddN l.

(** ** ModelBuilder.get_total_loss (l. 130-145) *)

Definition get_total_loss (inference_loss : tensor) : M tensor :=
  reg_losses ← tf_get_collection_REGULARIZATION_LOSSES;
  if (0 <? Z.of_nat (length reg_losses)) then
    tf_summary_scalar "inference_loss" inference_loss "sublosses";;
    let reg_loss := tf_add_n reg_losses in
    tf_summary_scalar "reg_loss" reg_loss "sublosses";;
    mret (TAdd inference_loss reg_loss)
  else
    mret inference_loss.

(** ** Mode keys and attribute lookup on the [tf] module

    The source names its mode keys through attribute chains such as
    [tf.estimator.ModeKeys.TRAIN].  The part of the [tf] name space those
    chains walk is modelled as a tree; a name that is not there raises
    [AttributeError], as Python does. *)

Inductive pyobj : Type :=
| PyNamespace (attrs : list (string * pyobj))
| PyStr (s : string).

Fixpoint assoc {A : Type} (k : string) (l : list (string * A)) : option A :=
  match l with
  | [] => None
  | (k', v) :: l' => if String.eqb k k' then Some v else assoc k l'
  end.

Definition ModeKeys : pyobj :=
  PyNamespace [("TRAIN", PyStr "train"); ("EVAL", PyStr "eval");
               ("PREDICT", PyStr "infer")].

Definition tf : pyobj :=
  PyNamespace [("estimator", PyNamespace [("ModeKeys", ModeKeys)])].

Definition getattr (o : pyobj) (name : string) : outcome pyobj :=
  match o with
  | PyNamespace attrs =>
      match assoc name attrs with
      | Some v => Ok v
      | None => Raise (AttributeError name)
      end
  | PyStr _ => Raise (AttributeError name)
  end.

Fixpoint getattrs (o : pyobj) (path : list string) : outcome pyobj :=
  match path with
  | [] => Ok o
  | name :: rest =>
      match getattr o name with
      | Ok o' => getattrs o' rest
      | Raise e => Raise e
      | OutOfFuel => OutOfFuel
      end
  end.

(** Evaluate [tf.a.b.c] where a mode key is expected. *)
Definition tf_attr (path : list string) : M string := λ w,
  match getattrs tf path with
  | Ok (PyStr s) => (Ok s, w)
  | Ok (PyNamespace _) => (Raise (TypeError "not a mode key"), w)
  | Raise e => (Raise e, w)
  | OutOfFuel => (OutOfFuel, w)
  end.

Definition TRAIN : string := "train".
Definition EVAL : string := "eval".
Definition PREDICT : string := "infer".

(** ** tf.estimator.EstimatorSpec *)

Record EstimatorSpec : Type := mkEstimatorSpec {
  spec_mode : value;
  spec_predictions : value;
  spec_loss : value;
  spec_train_op : value;
  spec_eval_metric_ops : value
}.

Definition kwarg (kw : gmap string value) (k : string) : value :=
  default VNone (kw !! k).

(** The constructor called with the keyword dictionary [kw]: [mode] is
    required, every other argument defaults to [None].  The checks the
    framework runs on the arguments (a loss in EVAL and TRAIN mode, a
    train op in TRAIN mode, well-formed metrics) are the framework's and
    are not modelled: what is proved of a returned spec is proved for
    arguments the constructor accepts, and says which arguments the
    builder hands over. *)
Definition tf_estimator_EstimatorSpec (kw : gmap string value) : M EstimatorSpec :=
  match kw !! "mode" with
  | None => raise (TypeError "missing required argument mode")
  | Some m =>
      mret (mkEstimatorSpec m (kwarg kw "predictions") (kwarg kw "loss")
                            (kwarg kw "train_op") (kwarg kw "eval_metric_ops"))
  end.

(** ** The class: overridable methods as a record

    The six abstract methods (l. 52-96), the two vis callbacks (l. 98-120)
    and the two methods with a default body (l. 122-128).  [model_id] and
    [params] are what [__init__] stores (l. 32-42). *)

Record ModelBuilder : Type := mkModelBuilder {
  model_id : string;
  params : gmap string Z;
  get_inference : value → string → Cb value;
  get_inference_loss : value → value → Cb tensor;
  get_train_op : tensor → tensor → Cb op;
  get_train_dataset : Cb dataset;
  get_eval_dataset : Cb dataset;
  get_predict_dataset : Cb dataset;
  vis_example_data : data → data → outcome value;
  vis_prediction_data : data → data → data → outcome value;
  get_predictions : value → Cb value;
  get_eval_metric_ops : value → value → Cb value
}.

(** [self.method(args)] on an overridable method: the call is logged and
    the method's body runs on the default graph. *)
Definition invoke {A : Type} (name : string) (args : list value) (body : Cb A) : M A :=
  log (Method name args);; lift body.

Definition abstract_method {A : Type} : Cb A :=
  λ g, (Raise (NotImplementedError "Abstract method"), g).

(** The base class itself, with nothing overridden. *)
Definition base (id : string) (ps : gmap string Z) : ModelBuilder :=
  {| model_id := id;
     params := ps;
     get_inference := λ _ _, abstract_method;
     get_inference_loss := λ _ _, abstract_method;
     get_train_op := λ _ _, abstract_method;
     get_train_dataset := abstract_method;
     get_eval_dataset := abstract_method;
     get_predict_dataset := abstract_method;
     vis_example_data := λ _ _, Raise (NotImplementedError EmptyString);
     vis_prediction_data := λ _ _ _, Raise (NotImplementedError EmptyString);
     get_predictions := λ inferences g, (Ok inferences, g);
     get_eval_metric_ops := λ _ _ g, (Ok (VDict []), g) |}.

(** ** Control dependencies and the global step *)

(** [with tf.control_dependencies(control_inputs): body].  The block's
    exit pops the stack whether or not the body raised. *)
Definition with_control_dependencies {A : Type}
    (control_inputs : list op) (body : M A) : M A := λ w,
  let g := graph w in
  let w1 := set_graph (set_control_stack (control_inputs :: control_stack g) g) w in
  let '(r, w2) := body w1 in
  (r, set_graph (set_control_stack (tail (control_stack (graph w2))) (graph w2)) w2).

(** How the framework creates an op: the control inputs are whatever the
    enclosing control-dependency blocks list. *)
Definition tf_create_op (name : string) (inputs : list tensor) : Cb op :=
  λ g, (Ok (Op name inputs (concat (control_stack g))), g).

Definition tf_train_get_or_create_global_step : M tensor := λ w,
  match global_step (graph w) with
  | Some t => (Ok t, w)
  | None =>
      let t := TSym "global_step" in
      (Ok t, set_graph (set_global_step t (graph w)) w)
  end.

(** ** ModelBuilder.get_estimator_spec (l. 147-174)

    [spec_kwargs] is the keyword dictionary the source fills step by step
    and hands to the spec constructor. *)

Definition get_estimator_spec (self : ModelBuilder)
    (features labels : value) (mode : string) (config : value) : M EstimatorSpec :=
  inference ← invoke "get_inference" [features; VStr mode]
                     (get_inference self features mode);
  predictions ← invoke "get_predictions" [inference]
                       (get_predictions self inference);
  let spec_kwargs : gmap string value :=
    <["predictions" := predictions]> {["mode" := VStr mode]} in
  k ← tf_attr ["estimator"; "ModeKeys"; "PREDICT"];
  if String.eqb mode k then tf_estimator_EstimatorSpec spec_kwargs else
  inference_loss ← invoke "get_inference_loss" [inference; labels]
                          (get_inference_loss self inference labels);
  loss ← get_total_loss inference_loss;
  let spec_kwargs := <["loss" := VTensor loss]> spec_kwargs in
  k ← tf_attr ["estimator"; "ModeKeys"; "EVAL"];
  if String.eqb mode k then
    metrics ← invoke "get_eval_metric_ops" [predictions; labels]
                     (get_eval_metric_ops self predictions labels);
    let spec_kwargs := <["eval_metric_ops" := metrics]> spec_kwargs in
    tf_estimator_EstimatorSpec spec_kwargs
  else
  step ← tf_train_get_or_create_global_step;
  update_ops ← tf_get_collection_UPDATE_OPS;
  train_op ← with_control_dependencies update_ops
                (invoke "get_train_op" [VTensor loss; VTensor step]
                        (get_train_op self loss step));
  let spec_kwargs := <["train_op" := VOp train_op]> spec_kwargs in
  k ← tf_attr ["estimator"; "ModeKeys"; "TRAIN"];
  if String.eqb mode k then tf_estimator_EstimatorSpec spec_kwargs else
  raise (ValueError ("Unrecognized mode " +:+ mode)).

(** ** Properties of the builder and the environment *)

(** What the repository takes from outside: the directory of the module
    file, and the framework's answers. *)
Record Env : Type := mkEnv {
  (** [os.path.dirname(__file__)] *)
  module_dir : string;
  (** result of [Estimator.train], [.predict] or [.evaluate] *)
  estimator_result :
    string → Estimator → string → list (string * value) → outcome value;
  (** [tf.train.latest_checkpoint(dir)] *)
  latest_checkpoint : string → value;
  (** [saver.restore(sess, path)] *)
  restore_result : value → outcome ();
  (** [sess.should_stop()] after so many runs *)
  should_stop : nat → bool;
  (** what one fetch evaluates to in the n-th [sess.run] *)
  run_fetch : nat → value → outcome data;
  (** whether the session's [with] block swallows an exception on exit *)
  exit_suppresses : exn → bool;
  (** [tf.train.Saver()] on the default graph: the framework refuses to
      build a saver for a graph without variables *)
  saver_init : Graph → outcome ()
}.

Fixpoint ends_with_sep (s : string) : bool :=
  match s with
  | EmptyString => false
  | String c EmptyString => Ascii.eqb c "/"%char
  | String _ rest => ends_with_sep rest
  end.

(** [os.path.join(a, b)] on a POSIX system. *)
Definition os_path_join (a b : string) : string :=
  if String.prefix "/" b then b
  else if String.eqb a EmptyString || ends_with_sep a then a +:+ b
  else a +:+ "/" +:+ b.

Definition estimator_dir (env : Env) : string :=
  os_path_join (module_dir env) "estimator".

Definition model_dir (env : Env) (self : ModelBuilder) : string :=
  os_path_join (estimator_dir env) (model_id self).

Definition batch_size (self : ModelBuilder) : M Z :=
  match params self !! "batch_size" with
  | Some b => mret b
  | None => raise (KeyError "batch_size")
  end.

(** ** Datasets, iterators and tuple unpacking *)

Fixpoint element_shape (d : dataset) : shape :=
  match d with
  | DSource _ s => s
  | DShuffle _ d' | DRepeat _ d' | DBatch _ d' => element_shape d'
  end.

(** The nest of tensors [get_next()] returns: one tensor per leaf of the
    element structure. *)
Fixpoint next_at (d : dataset) (path : list nat) (s : shape) : value :=
  match s with
  | SLeaf => VTensor (TNext d (rev path))
  | STuple l =>
      VTuple ((fix go (i : nat) (l : list shape) : list value :=
                 match l with
                 | [] => []
                 | s' :: l' => next_at d (i :: path) s' :: go (S i) l'
                 end) O l)
  | SDict l =>
      VDict ((fix go (i : nat) (l : list (string * shape)) : list (string * value) :=
                match l with
                | [] => []
                | (k, s') :: l' => (k, next_at d (i :: path) s') :: go (S i) l'
                end) O l)
  end.

Definition make_one_shot_iterator_get_next (d : dataset) : value :=
  next_at d [] (element_shape d).

(** [a, b = v] *)
Definition unpack2 (v : value) : M (value * value) :=
  match v with
  | VTuple [a; b] => mret (a, b)
  | VTuple _ => raise (ValueError "wrong number of values to unpack")
  | VDict [(k1, _); (k2, _)] => mret (VStr k1, VStr k2)
  | VDict _ => raise (ValueError "wrong number of values to unpack")
  | VStr (String c1 (String c2 EmptyString)) =>
      mret (VStr (String c1 EmptyString), VStr (String c2 EmptyString))
  | VStr _ => raise (ValueError "wrong number of values to unpack")
  | VNone => raise (TypeError "cannot unpack non-iterable NoneType object")
  | VTensor _ => raise (TypeError "Tensor object is not iterable")
  | VOp _ => raise (TypeError "Operation object is not iterable")
  end.

(** ** Input pipelines (l. 176-213)

    [shuffle] is a parameter of the source's signature that its body never
    reads. *)

Definition get_train_inputs (self : ModelBuilder)
    (shuffle : bool) (repeat_count : option Z) (shuffle_buffer_size : Z) : M value :=
  dataset ← invoke "get_train_dataset" [] (get_train_dataset self);
  let dataset := DRepeat repeat_count (DShuffle shuffle_buffer_size dataset) in
  b ← batch_size self;
  let dataset := DBatch b dataset in
  '(features, labels) ← unpack2 (make_one_shot_iterator_get_next dataset);
  mret (VTuple [features; labels]).

(** [self.get_train_inputs()] with the defaults of its signature. *)
Definition get_train_inputs_default (self : ModelBuilder) : M value :=
  get_train_inputs self true None 10000.

Definition get_eval_inputs (self : ModelBuilder) : M value :=
  dataset ← invoke "get_eval_dataset" [] (get_eval_dataset self);
  b ← batch_size self;
  let dataset := DBatch b dataset in
  '(features, labels) ← unpack2 (make_one_shot_iterator_get_next dataset);
  mret (VTuple [features; labels]).

Definition get_predict_inputs (self : ModelBuilder) : M value :=
  dataset ← invoke "get_predict_dataset" [] (get_predict_dataset self);
  b ← batch_size self;
  let dataset := DBatch b dataset in
  let features := make_one_shot_iterator_get_next dataset in
  mret (VTuple [features; VNone]).

(** ** ModelBuilder.get_inputs (l. 215-229)

    The attribute chains are spelled as the source spells them.  A mode
    that matches no test falls off the end and returns [None]. *)
Definition get_inputs (self : ModelBuilder) (mode : string) : M value :=
  k ← tf_attr ["estimator"; "ModeKeys"; "TRAIN"];
  if String.eqb mode k then get_train_inputs_default self else
  k ← tf_attr ["esitmator"; "ModeKeys"; "EVAL"];
  if String.eqb mode k then get_eval_inputs self else
  k ← tf_attr ["esitmator"; "ModeKeys"; "INFER"];
  if String.eqb mode k then get_predict_inputs self else
  mret VNone.

(** ** The estimator and its life-cycle wrappers (l. 231-249)

    Bound methods handed to the framework ([self.get_estimator_spec],
    [self.get_train_inputs], ...) are named by their method name. *)

Definition get_estimator (env : Env) (self : ModelBuilder) (config : value) : Estimator :=
  mkEstimator "get_estimator_spec" (model_dir env self) config.

(** A call of [estimator.entry(input_fn, **kwargs)]: logged, answered by
    the framework. *)
Definition estimator_call (env : Env) (entry : string) (est : Estimator)
    (input_fn : string) (kwargs : list (string * value)) : M value :=
  log (EstimatorCall entry est input_fn kwargs);;
  answer (estimator_result env entry est input_fn kwargs).

Definition train (env : Env) (self : ModelBuilder) (config : value)
    (train_kwargs : list (string * value)) : M value :=
  let estimator := get_estimator env self config in
  estimator_call env "train" estimator "get_train_inputs" train_kwargs;;
  mret VNone.

Definition predict (env : Env) (self : ModelBuilder) (config : value)
    (predict_kwargs : list (string * value)) : M value :=
  let estimator := get_estimator env self config in
  estimator_call env "predict" estimator "get_predict_inputs" predict_kwargs.

Definition eval (env : Env) (self : ModelBuilder) (config : value)
    (eval_kwargs : list (string * value)) : M value :=
  let estimator := get_estimator env self config in
  estimator_call env "evaluate" estimator "get_eval_inputs" eval_kwargs.

(** ** Sessions and the visualization loops (l. 251-290)

    The loops run until the session asks to stop, which it may never do;
    they are given fuel. *)

(** [graph = tf.Graph()] then [with graph.as_default(): body]: the body
    builds into a fresh graph, and the previous default graph is back in
    place afterwards. *)
Definition with_graph_as_default {A : Type} (body : M A) : M A := λ w,
  let '(r, w') := body (set_graph empty_graph w) in
  (r, set_graph (graph w) w').

(** [with tf.train.MonitoredSession() as sess: body] *)
Definition with_MonitoredSession (env : Env) (body : M ()) : M () := λ w,
  let '(r, w') := body (mkWorld (graph w) (calls w) O) in
  match r with
  | Raise e => if exit_suppresses env e then (Ok (), w') else (Raise e, w')
  | _ => (r, w')
  end.

Definition sess_should_stop (env : Env) : M bool :=
  λ w, (Ok (should_stop env (sess_steps w)), w).

Fixpoint run_fetches (f : value → outcome data) (fetches : list value)
    : outcome (list data) :=
  match fetches with
  | [] => Ok []
  | x :: rest =>
      match f x with
      | Ok y =>
          match run_fetches f rest with
          | Ok ys => Ok (y :: ys)
          | Raise e => Raise e
          | OutOfFuel => OutOfFuel
          end
      | Raise e => Raise e
      | OutOfFuel => OutOfFuel
      end
  end.

(** [sess.run(fetches)] on a list of fetches: one result per fetch. *)
Definition sess_run (env : Env) (fetches : list value) : M (list data) :=
  λ w, (run_fetches (run_fetch env (sess_steps w)) fetches,
        mkWorld (graph w) (calls w ++ [SessionRun fetches]) (S (sess_steps w))).

(** [saver = tf.train.Saver()] (l. 284) *)
Definition tf_train_Saver (env : Env) : M () :=
  λ w, (saver_init env (graph w), w).

Definition saver_restore (env : Env) (save_path : value) : M () :=
  log (SaverRestore save_path);;
  answer (restore_result env save_path).

(** [while not sess.should_stop(): body] *)
Fixpoint while_not_should_stop (env : Env) (fuel : nat) (body : M ()) : M () :=
  match fuel with
  | O => λ w, (OutOfFuel, w)
  | S fuel' =>
      stop ← sess_should_stop env;
      if stop : bool then mret ()
      else body;; while_not_should_stop env fuel' body
  end.

(** A vis callback called through [self]: logged, its outcome returned. *)
Definition invoke_vis (name : string) (args : list data) (r : outcome value) : M () :=
  log (Vis name args);;
  answer r;;
  mret ().

(** Reading the locals [features] and [labels], which only the PREDICT and
    TRAIN branches bind. *)
Definition read_local (name : string) (x : option value) : M value :=
  match x with
  | Some v => mret v
  | None => raise (UnboundLocalError name)
  end.

(** The [if mode == PREDICT ... elif mode == TRAIN ...] head shared by both
    vis functions; there is no [else]. *)
Definition bind_inputs (self : ModelBuilder) (mode : string) : M (option (value * value)) :=
  k ← tf_attr ["estimator"; "ModeKeys"; "PREDICT"];
  if String.eqb mode k then
    v ← get_predict_inputs self; p ← unpack2 v; mret (Some p)
  else
    k ← tf_attr ["estimator"; "ModeKeys"; "TRAIN"];
    if String.eqb mode k then
      v ← get_train_inputs_default self; p ← unpack2 v; mret (Some p)
    else mret None.

Definition vis_inputs (env : Env) (fuel : nat) (self : ModelBuilder) (mode : string) : M () :=
  with_graph_as_default (
    locals ← bind_inputs self mode;
    with_MonitoredSession env (
      while_not_should_stop env fuel (
        features ← read_local "features" (fst <$> locals);
        labels ← read_local "labels" (snd <$> locals);
        data ← sess_run env [features; labels];
        match data with
        | [feature_data; label_data] =>
            invoke_vis "vis_example_data" [feature_data; label_data]
                       (vis_example_data self feature_data label_data)
        | _ => raise (ValueError "wrong number of values to unpack")
        end))).

Definition vis_predictions (env : Env) (fuel : nat) (self : ModelBuilder) (mode : string) : M () :=
  with_graph_as_default (
    locals ← bind_inputs self mode;
    features ← read_local "features" (fst <$> locals);
    labels ← read_local "labels" (snd <$> locals);
    k ← tf_attr ["estimator"; "ModeKeys"; "PREDICT"];
    spec ← get_estimator_spec self features labels k VNone;
    let predictions := spec_predictions spec in
    tf_train_Saver env;;
    with_MonitoredSession env (
      saver_restore env (latest_checkpoint env (model_dir env self));;
      while_not_should_stop env fuel (
        data ← sess_run env [predictions; features; labels];
        match data with
        | [prediction_data; feature_data; label_data] =>
            invoke_vis "vis_prediction_data"
                       [prediction_data; feature_data; label_data]
                       (vis_prediction_data self prediction_data feature_data label_data)
        | _ => raise (TypeError "vis_prediction_data takes 3 positional arguments")
        end))).

(** ** A concrete subclass and a concrete environment

    A small regression model that overrides every method, and a session
    that yields [n] batches and then asks to stop.  They serve to run the
    definitions above on concrete inputs. *)

Module Example.

Fixpoint tensors_of (v : value) : list tensor :=
  match v with
  | VTensor t => [t]
  | VTuple l =>
      (fix go (l : list value) : list tensor :=
         match l with [] => [] | x :: l' => tensors_of x ++ go l' end) l
  | VDict l =>
      (fix go (l : list (string * value)) : list tensor :=
         match l with [] => [] | (_, x) :: l' => tensors_of x ++ go l' end) l
  | _ => []
  end.

Definition add_regularization_loss (t : tensor) (g : Graph) : Graph :=
  mkGraph (regularization_losses g ++ [t]) (update_ops g) (summaries g)
          (global_step g) (control_stack g).

Definition add_update_op (o : op) (g : Graph) : Graph :=
  mkGraph (regularization_losses g) (update_ops g ++ [o]) (summaries g)
          (global_step g) (control_stack g).

Definition moving_average : op := Op "moving_average" [TSym "mean"] [].

Definition builder : ModelBuilder :=
  {| model_id := "regression";
     params := {["batch_size" := 32]};
     get_inference := λ features mode g,
       (Ok (VTensor (TApply "dense" (tensors_of features))),
        add_update_op moving_average
          (add_regularization_loss (TApply "l2" [TSym "kernel"]) g));
     get_inference_loss := λ inference labels g,
       (Ok (TApply "mean_squared_error"
                   (tensors_of labels ++ tensors_of inference)), g);
     get_train_op := λ loss step, tf_create_op "minimize" [loss; step];
     get_train_dataset := λ g,
       (Ok (DSource "train_examples" (STuple [SLeaf; SLeaf])), g);
     get_eval_dataset := λ g,
       (Ok (DSource "eval_examples" (STuple [SLeaf; SLeaf])), g);
     get_predict_dataset := λ g,
       (Ok (DSource "predict_examples" (SDict [("x", SLeaf)])), g);
     vis_example_data := λ _ _, Ok VNone;
     vis_prediction_data := λ _ _ _, Ok VNone;
     get_predictions := λ inferences g, (Ok (VDict [("y", inferences)]), g);
     get_eval_metric_ops := λ predictions labels g,
       (Ok (VDict [("error",
                    VTensor (TApply "mean_absolute_error"
                               (tensors_of labels ++ tensors_of predictions)))]),
        g) |}.

(** One fetch of a session run: a tensor gives an array, an op gives
    [None], nests are mapped, and [None] is not a fetch. *)
Fixpoint fetch (k : nat) (v : value) : outcome data :=
  match v with
  | VTensor t => Ok (DataArray k t)
  | VOp _ => Ok DataNone
  | VStr s => Ok (DataArray k (TSym s))
  | VNone => Raise (TypeError "Fetch argument None has invalid type")
  | VTuple l =>
      match
        (fix go (l : list value) : outcome (list data) :=
           match l with
           | [] => Ok []
           | x :: l' =>
               match fetch k x, go l' with
               | Ok y, Ok ys => Ok (y :: ys)
               | Raise e, _ => Raise e
               | _, Raise e => Raise e
               | _, _ => OutOfFuel
               end
           end) l
      with
      | Ok ys => Ok (DataTuple ys)
      | Raise e => Raise e
      | OutOfFuel => OutOfFuel
      end
  | VDict l =>
      match
        (fix go (l : list (string * value)) : outcome (list (string * data)) :=
           match l with
           | [] => Ok []
           | (key, x) :: l' =>
               match fetch k x, go l' with
               | Ok y, Ok ys => Ok ((key, y) :: ys)
               | Raise e, _ => Raise e
               | _, Raise e => Raise e
               | _, _ => OutOfFuel
               end
           end) l
      with
      | Ok ys => Ok (DataDict ys)
      | Raise e => Raise e
      | OutOfFuel => OutOfFuel
      end
  end.

(** An environment whose session stops after [n] runs. *)
Definition env (n : nat) : Env :=
  {| module_dir := "/src/model";
     estimator_result := λ entry _ input_fn _, Ok (VStr (entry +:+ ":" +:+ input_fn));
     latest_checkpoint := λ dir, VStr (dir +:+ "/model.ckpt-1000");
     restore_result := λ path,
       match path with
       | VStr _ => Ok ()
       | _ => Raise (ValueError "Can't load save_path when it is None.")
       end;
     should_stop := λ k, Nat.leb n k;
     run_fetch := fetch;
     exit_suppresses := λ e,
       match e with OutOfRangeError => true | _ => false end;
     saver_init := λ _, Ok () |}.

Definition world : World := mkWorld empty_graph [] O.

End Example.

(** ** Predicates used in the statements *)

(** A callback that returns on every graph. *)
Definition returns {A : Type} (c : Cb A) : Prop :=
  ∀ g, ∃ a g', c g = (Ok a, g').

(** The subclass implements what [get_estimator_spec] calls. *)
Definition estimator_callbacks_return (self : ModelBuilder) : Prop :=
  (∀ features mode, returns (get_inference self features mode)) ∧
  (∀ inference, returns (get_predictions self inference)) ∧
  (∀ inference labels, returns (get_inference_loss self inference labels)) ∧
  (∀ loss step, returns (get_train_op self loss step)).

(** The op a callback returns was created where the callback ran: every
    op on the control-dependency stack is one of its control inputs. *)
Definition honours_control_dependencies (c : Cb op) : Prop :=
  ∀ g o g', c g = (Ok o, g') →
    ∀ u, u ∈ concat (control_stack g) → u ∈ op_control_inputs o.

(** [get_estimator_spec] up to the total loss: the three callbacks return
    and [get_total_loss] yields [loss], leaving the world [w4]. *)
Definition reaches_loss (self : ModelBuilder) (features labels : value)
    (mode : string) (w : World) (inference predictions : value)
    (loss : tensor) (w4 : World) : Prop :=
  ∃ g1 g2 inference_loss g3,
    get_inference self features mode (graph w) = (Ok inference, g1) ∧
    get_predictions self inference g1 = (Ok predictions, g2) ∧
    get_inference_loss self inference labels g2 = (Ok inference_loss, g3) ∧
    get_total_loss inference_loss
      (mkWorld g3
         (calls w ++ [Method "get_inference" [features; VStr mode];
                      Method "get_predictions" [inference];
                      Method "get_inference_loss" [inference; labels]])
         (sess_steps w)) = (Ok loss, w4).

(** The graph inside the [with tf.control_dependencies(update_ops)] block
    of [get_estimator_spec]. *)
Definition in_update_block (g : Graph) : Graph :=
  set_control_stack (update_ops g :: control_stack g) g.

Definition leave_update_block (g : Graph) : Graph :=
  set_control_stack (tail (control_stack g)) g.

(** Iterating a dataset whose elements are pairs: what the train and eval
    pipelines end with. *)
Definition iterate_pairs (d : dataset) : M value :=
  '(features, labels) ← unpack2 (make_one_shot_iterator_get_next d);
  mret (VTuple [features; labels]).

(** The log entries of one turn of a visualization loop. *)
Definition turn (fetches : list value) (callback : string)
    (batch : nat → list data) (k : nat) : list Call :=
  [SessionRun fetches; Vis callback (batch k)].

(** ** Relations between the world before and after a computation

    Frame properties are stated through [respects R m]: whatever [m]
    yields, the world it leaves is related by [R] to the one it found. *)

Definition respects {A : Type} (R : World → World → Prop) (m : M A) : Prop :=
  ∀ w r w', m w = (r, w') → R w w'.

(** The name under which a logged call counts. *)
Definition call_name (c : Call) : string :=
  match c with
  | Method name _ => name
  | Vis name _ => name
  | EstimatorCall entry _ _ _ => "Estimator." +:+ entry
  | SaverRestore _ => "Saver.restore"
  | SessionRun _ => "Session.run"
  end.

(** The log grew, and only by calls with one of the [names]. *)
Definition logs_only (names : list string) (w w' : World) : Prop :=
  ∃ l, calls w' = calls w ++ l ∧ Forall (λ c, call_name c ∈ names) l.

(** The control-dependency stack is as it was. *)
Definition same_stack (w w' : World) : Prop :=
  control_stack (graph w') = control_stack (graph w).

(** A callback whose [with] blocks are balanced. *)
Definition keeps_stack {A : Type} (c : Cb A) : Prop :=
  ∀ g r g', c g = (r, g') → control_stack g' = control_stack g.

Definition estimator_callbacks_keep_stack (self : ModelBuilder) : Prop :=
  (∀ features mode, keeps_stack (get_inference self features mode)) ∧
  (∀ inference, keeps_stack (get_predictions self inference)) ∧
  (∀ inference labels, keeps_stack (get_inference_loss self inference labels)) ∧
  (∀ predictions labels, keeps_stack (get_eval_metric_ops self predictions labels)) ∧
  (∀ loss step, keeps_stack (get_train_op self loss step)).

(** The callbacks [get_estimator_spec] may reach in a given mode. *)
Definition callbacks_of_mode (mode : string) : list string :=
  if String.eqb mode PREDICT then ["get_inference"; "get_predictions"]
  else if String.eqb mode EVAL then
    ["get_inference"; "get_predictions"; "get_inference_loss";
     "get_eval_metric_ops"]
  else
    ["get_inference"; "get_predictions"; "get_inference_loss"; "get_train_op"].

(** What a [with] block of the session makes of an exception. *)
Definition on_exit (env : Env) (e : exn) : outcome () :=
  if exit_suppresses env e then Ok () else Raise e.

(** One turn of the loop of [vis_inputs] (l. 266-267), given what the head
    of the method bound. *)
Definition example_turn (env : Env) (self : ModelBuilder)
    (locals : option (value * value)) : M () :=
  features ← read_local "features" (fst <$> locals);
  labels ← read_local "labels" (snd <$> locals);
  data ← sess_run env [features; labels];
  match data with
  | [feature_data; label_data] =>
      invoke_vis "vis_example_data" [feature_data; label_data]
                 (vis_example_data self feature_data label_data)
  | _ => raise (ValueError "wrong number of values to unpack")
  end.

(** One turn of the loop of [vis_predictions] (l. 289-290). *)
Definition prediction_turn (env : Env) (self : ModelBuilder)
    (predictions features labels : value) : M () :=
  data ← sess_run env [predictions; features; labels];
  match data with
  | [prediction_data; feature_data; label_data] =>
      invoke_vis "vis_prediction_data"
                 [prediction_data; feature_data; label_data]
                 (vis_prediction_data self prediction_data feature_data label_data)
  | _ => raise (TypeError "vis_prediction_data takes 3 positional arguments")
  end.

(** The calls [vis_inputs] and [vis_predictions] may log. *)
Definition vis_inputs_calls : list string :=
  ["get_predict_dataset"; "get_train_dataset"; "Session.run";
   "vis_example_data"].

Definition vis_predictions_calls : list string :=
  ["get_predict_dataset"; "get_train_dataset"; "get_inference";
   "get_predictions"; "Saver.restore"; "Session.run"; "vis_prediction_data"].

(** ** Variants of the example, for edge cases *)

Module Variants.

(** The example with other hyper-parameters. *)
Definition with_params (ps : gmap string Z) : ModelBuilder :=
  mkModelBuilder (model_id Example.builder) ps
    (get_inference Example.builder) (get_inference_loss Example.builder)
    (get_train_op Example.builder) (get_train_dataset Example.builder)
    (get_eval_dataset Example.builder) (get_predict_dataset Example.builder)
    (vis_example_data Example.builder) (vis_prediction_data Example.builder)
    (get_predictions Example.builder) (get_eval_metric_ops Example.builder).

(** The example with another training dataset. *)
Definition with_train_dataset (d : dataset) : ModelBuilder :=
  mkModelBuilder (model_id Example.builder) (params Example.builder)
    (get_inference Example.builder) (get_inference_loss Example.builder)
    (get_train_op Example.builder) (λ g, (Ok d, g))
    (get_eval_dataset Example.builder) (get_predict_dataset Example.builder)
    (vis_example_data Example.builder) (vis_prediction_data Example.builder)
    (get_predictions Example.builder) (get_eval_metric_ops Example.builder).

(** The example with only the six abstract methods overridden: the vis
    callbacks, [get_predictions] and [get_eval_metric_ops] are the base
    class's. *)
Definition minimal (id : string) : ModelBuilder :=
  mkModelBuilder id (params Example.builder)
    (get_inference Example.builder) (get_inference_loss Example.builder)
    (get_train_op Example.builder) (get_train_dataset Example.builder)
    (get_eval_dataset Example.builder) (get_predict_dataset Example.builder)
    (vis_example_data (base id ∅)) (vis_prediction_data (base id ∅))
    (get_predictions (base id ∅)) (get_eval_metric_ops (base id ∅)).

(** A session over a dataset of [n] batches: it never asks to stop, and
    the run after the last batch raises [OutOfRangeError]. *)
Definition exhausting (n : nat) : Env :=
  mkEnv (module_dir (Example.env n)) (estimator_result (Example.env n))
    (latest_checkpoint (Example.env n)) (restore_result (Example.env n))
    (λ _, false)
    (λ k v, if Nat.ltb k n then Example.fetch k v else Raise OutOfRangeError)
    (exit_suppresses (Example.env n)) (saver_init (Example.env n)).

(** A session that never asks to stop and always has a batch. *)
Definition endless : Env :=
  mkEnv (module_dir (Example.env O)) (estimator_result (Example.env O))
    (latest_checkpoint (Example.env O)) (restore_result (Example.env O))
    (λ _, false) Example.fetch (exit_suppresses (Example.env O))
    (saver_init (Example.env O)).

(** A model directory without any checkpoint. *)
Definition without_checkpoint (n : nat) : Env :=
  mkEnv (module_dir (Example.env n)) (estimator_result (Example.env n))
    (λ _, VNone) (restore_result (Example.env n))
    (should_stop (Example.env n)) Example.fetch
    (exit_suppresses (Example.env n)) (saver_init (Example.env n)).

(** A model whose graph holds no variable: no saver can be built. *)
Definition without_variables (n : nat) : Env :=
  mkEnv (module_dir (Example.env n)) (estimator_result (Example.env n))
    (latest_checkpoint (Example.env n)) (restore_result (Example.env n))
    (should_stop (Example.env n)) Example.fetch
    (exit_suppresses (Example.env n))
    (λ _, Raise (ValueError "No variables to save")).

End Variants.

(** ** Basic facts about the monad and the framework calls *)

Lemma bind_ok {A B : Type} (m : M A) (f : A → M B) (w w' : World) (a : A) :
  m w = (Ok a, w') → (m ≫= f) w = f a w'.
Proof. intros H. unfold mbind, M_bind. rewrite H. reflexivity. Qed.

Lemma bind_raise {A B : Type} (m : M A) (f : A → M B) (w w' : World) (e : exn) :
  m w = (Raise e, w') → (m ≫= f) w = (Raise e, w').
Proof. intros H. unfold mbind, M_bind. rewrite H. reflexivity. Qed.

Lemma invoke_ok {A : Type} (name : string) (args : list value) (c : Cb A)
    (w : World) (a : A) (g : Graph) :
  c (graph w) = (Ok a, g) →
  invoke name args c w =
    (Ok a, mkWorld g (calls w ++ [Method name args]) (sess_steps w)).
Proof.
  intros H. unfold invoke, mbind, M_bind, log, lift. cbn. rewrite H. reflexivity.
Qed.

Lemma tf_attr_PREDICT (w : World) :
  tf_attr ["estimator"; "ModeKeys"; "PREDICT"] w = (Ok PREDICT, w).
Proof. reflexivity. Qed.

Lemma tf_attr_EVAL (w : World) :
  tf_attr ["estimator"; "ModeKeys"; "EVAL"] w = (Ok EVAL, w).
Proof. reflexivity. Qed.

Lemma tf_attr_TRAIN (w : World) :
  tf_attr ["estimator"; "ModeKeys"; "TRAIN"] w = (Ok TRAIN, w).
Proof. reflexivity. Qed.

Lemma tf_attr_esitmator (name : string) (w : World) :
  tf_attr ["esitmator"; "ModeKeys"; name] w = (Raise (AttributeError "esitmator"), w).
Proof. reflexivity. Qed.

(** ** get_total_loss *)

Lemma get_total_loss_empty (inference_loss : tensor) (w : World) :
  regularization_losses (graph w) = [] →
  get_total_loss inference_loss w = (Ok inference_loss, w).
Proof.
  intros E. unfold get_total_loss, mbind, M_bind,
    tf_get_collection_REGULARIZATION_LOSSES.
  rewrite E. reflexivity.
Qed.

Lemma get_total_loss_nonempty (inference_loss : tensor) (w : World)
    (r : tensor) (rs : list tensor) :
  regularization_losses (graph w) = r :: rs →
  get_total_loss inference_loss w =
    (Ok (TAdd inference_loss (TAddN (r :: rs))),
     set_graph
       (add_summary "sublosses" "reg_loss" (TAddN (r :: rs))
          (add_summary "sublosses" "inference_loss" inference_loss (graph w)))
       w).
Proof.
  intros E. unfold get_total_loss, mbind, M_bind,
    tf_get_collection_REGULARIZATION_LOSSES.
  rewrite E.
  replace (0 <? Z.of_nat (length (r :: rs))) with true
    by (symmetry; apply Z.ltb_lt; cbn [length]; lia).
  reflexivity.
Qed.

Lemma get_total_loss_returns (inference_loss : tensor) (w : World) :
  ∃ loss w', get_total_loss inference_loss w = (Ok loss, w').
Proof.
  destruct (regularization_losses (graph w)) as [|r rs] eqn:E.
  - rewrite (get_total_loss_empty _ _ E). eauto.
  - rewrite (get_total_loss_nonempty _ _ _ _ E). eauto.
Qed.

(** C2. [get_total_loss] returns the inference loss plus [tf.add_n] of the
    collected regularization losses when that collection is non-empty
    (adding the two summaries to the graph), and the inference loss itself,
    with the graph untouched, when the collection is empty. *)
Theorem get_total_loss_spec (inference_loss : tensor) (w : World) :
  get_total_loss inference_loss w =
    match regularization_losses (graph w) with
    | [] => (Ok inference_loss, w)
    | _ :: _ =>
        let reg_loss := TAddN (regularization_losses (graph w)) in
        (Ok (TAdd inference_loss reg_loss),
         set_graph
           (add_summary "sublosses" "reg_loss" reg_loss
              (add_summary "sublosses" "inference_loss" inference_loss (graph w)))
           w)
    end.
Proof.
  destruct (regularization_losses (graph w)) as [|r rs] eqn:E.
  - apply get_total_loss_empty. exact E.
  - cbn zeta. apply get_total_loss_nonempty. exact E.
Qed.

(** ** get_estimator_spec *)

Lemma eqb_PREDICT_ne (mode : string) : mode ≠ PREDICT → String.eqb mode PREDICT = false.
Proof. apply String.eqb_neq. Qed.

Lemma eqb_EVAL_ne (mode : string) : mode ≠ EVAL → String.eqb mode EVAL = false.
Proof. apply String.eqb_neq. Qed.

Lemma eqb_TRAIN_ne (mode : string) : mode ≠ TRAIN → String.eqb mode TRAIN = false.
Proof. apply String.eqb_neq. Qed.

Ltac step_ok H :=
  erewrite bind_ok; [ | first [ apply invoke_ok; cbn [graph]; exact H | exact H ] ];
  cbn beta iota.

Lemma EstimatorSpec_of_kwargs (kw : gmap string value) (m : value) (w : World) :
  kw !! "mode" = Some m →
  tf_estimator_EstimatorSpec kw w =
    (Ok (mkEstimatorSpec m (kwarg kw "predictions") (kwarg kw "loss")
           (kwarg kw "train_op") (kwarg kw "eval_metric_ops")), w).
Proof. intros H. unfold tf_estimator_EstimatorSpec. rewrite H. reflexivity. Qed.

Lemma get_estimator_spec_PREDICT (self : ModelBuilder)
    (features labels config : value) (w : World)
    (inference predictions : value) (g1 g2 : Graph) :
  get_inference self features PREDICT (graph w) = (Ok inference, g1) →
  get_predictions self inference g1 = (Ok predictions, g2) →
  get_estimator_spec self features labels PREDICT config w =
    (Ok (mkEstimatorSpec (VStr PREDICT) predictions VNone VNone VNone),
     mkWorld g2
       (calls w ++ [Method "get_inference" [features; VStr PREDICT];
                    Method "get_predictions" [inference]])
       (sess_steps w)).
Proof.
  intros H1 H2. unfold get_estimator_spec.
  step_ok H1. step_ok H2.
  erewrite bind_ok; [ | apply tf_attr_PREDICT ].
  cbn beta iota. rewrite String.eqb_refl.
  cbn [calls sess_steps]. rewrite <- app_assoc.
  reflexivity.
Qed.

(** Walk [get_estimator_spec] down to the test that follows the total
    loss, given the callbacks' results packed in [reaches_loss]. *)
Ltac to_loss H Hne :=
  destruct H as (g1 & g2 & inference_loss & g3 & H1 & H2 & H3 & H4);
  unfold get_estimator_spec;
  step_ok H1; step_ok H2;
  (erewrite bind_ok; [ | apply tf_attr_PREDICT ]); cbn beta iota;
  rewrite (eqb_PREDICT_ne _ Hne);
  step_ok H3; cbn [calls sess_steps]; rewrite <- !app_assoc; cbn [app];
  step_ok H4;
  (erewrite bind_ok; [ | apply tf_attr_EVAL ]); cbn beta iota.

Lemma get_estimator_spec_EVAL (self : ModelBuilder)
    (features labels config : value) (w w4 : World)
    (inference predictions metrics : value) (loss : tensor) (g5 : Graph) :
  reaches_loss self features labels EVAL w inference predictions loss w4 →
  get_eval_metric_ops self predictions labels (graph w4) = (Ok metrics, g5) →
  get_estimator_spec self features labels EVAL config w =
    (Ok (mkEstimatorSpec (VStr EVAL) predictions (VTensor loss) VNone metrics),
     mkWorld g5
       (calls w4 ++ [Method "get_eval_metric_ops" [predictions; labels]])
       (sess_steps w4)).
Proof.
  intros H H5.
  assert (Hne : EVAL ≠ PREDICT) by discriminate.
  to_loss H Hne.
  rewrite String.eqb_refl. step_ok H5.
  reflexivity.
Qed.

(** Any mode other than PREDICT and EVAL reaches the train op; only then
    is the mode compared with TRAIN. *)
Lemma get_estimator_spec_train_op (self : ModelBuilder)
    (features labels config : value) (mode : string) (w w4 w5 : World)
    (inference predictions : value) (loss step : tensor)
    (train_op : op) (g6 : Graph) :
  mode ≠ PREDICT → mode ≠ EVAL →
  reaches_loss self features labels mode w inference predictions loss w4 →
  tf_train_get_or_create_global_step w4 = (Ok step, w5) →
  get_train_op self loss step (in_update_block (graph w5)) = (Ok train_op, g6) →
  get_estimator_spec self features labels mode config w =
    (if String.eqb mode TRAIN
     then Ok (mkEstimatorSpec (VStr mode) predictions (VTensor loss)
                (VOp train_op) VNone)
     else Raise (ValueError ("Unrecognized mode " +:+ mode)),
     mkWorld (leave_update_block g6)
       (calls w5 ++ [Method "get_train_op" [VTensor loss; VTensor step]])
       (sess_steps w5)).
Proof.
  intros Hp He H H5 H6.
  to_loss H Hp.
  rewrite (eqb_EVAL_ne _ He).
  step_ok H5.
  erewrite bind_ok; [ | reflexivity ]. cbn beta iota.
  erewrite bind_ok; cycle 1.
  { unfold with_control_dependencies.
    erewrite invoke_ok; [ reflexivity | exact H6 ]. }
  cbn beta iota.
  erewrite bind_ok; [ | apply tf_attr_TRAIN ]. cbn beta iota.
  destruct (String.eqb mode TRAIN); reflexivity.
Qed.

(** C1. [get_estimator_spec] dispatches on the mode.  In PREDICT mode the
    spec carries the mode and the predictions only, and the log shows that
    neither [get_inference_loss] nor [get_train_op] was called; in EVAL
    mode it carries mode, predictions, total loss and the result of
    [get_eval_metric_ops predictions labels]; in TRAIN mode it carries
    mode, predictions, total loss and the op [get_train_op] returned. *)
Theorem get_estimator_spec_dispatch (self : ModelBuilder)
    (features labels config : value) (w : World) :
  (∀ inference predictions g1 g2,
     get_inference self features PREDICT (graph w) = (Ok inference, g1) →
     get_predictions self inference g1 = (Ok predictions, g2) →
     get_estimator_spec self features labels PREDICT config w =
       (Ok (mkEstimatorSpec (VStr PREDICT) predictions VNone VNone VNone),
        mkWorld g2
          (calls w ++ [Method "get_inference" [features; VStr PREDICT];
                       Method "get_predictions" [inference]])
          (sess_steps w)))
  ∧
  (∀ inference predictions loss w4 metrics g5,
     reaches_loss self features labels EVAL w inference predictions loss w4 →
     get_eval_metric_ops self predictions labels (graph w4) = (Ok metrics, g5) →
     get_estimator_spec self features labels EVAL config w =
       (Ok (mkEstimatorSpec (VStr EVAL) predictions (VTensor loss) VNone metrics),
        mkWorld g5
          (calls w4 ++ [Method "get_eval_metric_ops" [predictions; labels]])
          (sess_steps w4)))
  ∧
  (∀ inference predictions loss w4 step w5 train_op g6,
     reaches_loss self features labels TRAIN w inference predictions loss w4 →
     tf_train_get_or_create_global_step w4 = (Ok step, w5) →
     get_train_op self loss step (in_update_block (graph w5)) = (Ok train_op, g6) →
     get_estimator_spec self features labels TRAIN config w =
       (Ok (mkEstimatorSpec (VStr TRAIN) predictions (VTensor loss)
              (VOp train_op) VNone),
        mkWorld (leave_update_block g6)
          (calls w5 ++ [Method "get_train_op" [VTensor loss; VTensor step]])
          (sess_steps w5))).
Proof.
  split; [ | split ].
  - intros. eapply get_estimator_spec_PREDICT; eassumption.
  - intros. eapply get_estimator_spec_EVAL; eassumption.
  - intros inference predictions loss w4 step w5 train_op g6 H H5 H6.
    erewrite get_estimator_spec_train_op; try eassumption; try discriminate.
    reflexivity.
Qed.

Lemma get_estimator_spec_dispatch_witness :
  let x := VTensor (TSym "x") in
  let y := VTensor (TSym "y") in
  let run mode :=
    fst (get_estimator_spec Example.builder x y mode VNone Example.world) in
  let dense := VDict [("y", VTensor (TApply "dense" [TSym "x"]))] in
  let loss :=
    VTensor (TAdd (TApply "mean_squared_error" [TSym "y"; TApply "dense" [TSym "x"]])
                  (TAddN [TApply "l2" [TSym "kernel"]])) in
  run PREDICT = Ok (mkEstimatorSpec (VStr PREDICT) dense VNone VNone VNone) ∧
  spec_loss <$> match run EVAL with Ok s => Some s | _ => None end = Some loss ∧
  spec_loss <$> match run TRAIN with Ok s => Some s | _ => None end = Some loss.
Proof.
  intros x y run dense loss.
  destruct (get_estimator_spec_dispatch Example.builder x y VNone Example.world)
    as (HP & HE & HT).
  split; [ | split ]; unfold run.
  - erewrite HP; reflexivity.
  - erewrite HE; cycle 1.
    + unfold reaches_loss. do 4 eexists.
      split; [ | split; [ | split ] ]; [ reflexivity | reflexivity | reflexivity | ].
      erewrite get_total_loss_nonempty; reflexivity.
    + cbn. reflexivity.
    + reflexivity.
  - erewrite HT; cycle 1.
    + unfold reaches_loss. do 4 eexists.
      split; [ | split; [ | split ] ]; [ reflexivity | reflexivity | reflexivity | ].
      erewrite get_total_loss_nonempty; reflexivity.
    + cbn. reflexivity.
    + cbn. reflexivity.
    + reflexivity.
Defined.

(** ** Unrecognized modes *)

Lemma bind_inv {A B : Type} (m : M A) (f : A → M B) (w w' : World) (b : B) :
  (m ≫= f) w = (Ok b, w') → ∃ a w1, m w = (Ok a, w1) ∧ f a w1 = (Ok b, w').
Proof.
  unfold mbind, M_bind. destruct (m w) as [[a|e|] w1]; intros H.
  - eauto.
  - discriminate.
  - discriminate.
Qed.

Lemma tf_attr_inv (path : list string) (k k' : string) (w w1 w' : World) :
  tf_attr path w = (Ok k, w) → tf_attr path w1 = (Ok k', w') → k' = k ∧ w' = w1.
Proof.
  unfold tf_attr. destruct (getattrs tf path) as [[|s]| |]; intros H H'; try discriminate.
  injection H as <-. injection H' as <- <-. split; reflexivity.
Qed.

Lemma tf_train_get_or_create_global_step_returns (w : World) :
  ∃ step w', tf_train_get_or_create_global_step w = (Ok step, w') ∧
             update_ops (graph w') = update_ops (graph w).
Proof.
  unfold tf_train_get_or_create_global_step.
  destruct (global_step (graph w)); eauto.
Qed.

Lemma get_estimator_spec_never_returns (self : ModelBuilder)
    (features labels config : value) (mode : string) (w w' : World)
    (spec : EstimatorSpec) :
  mode ≠ PREDICT → mode ≠ EVAL → mode ≠ TRAIN →
  get_estimator_spec self features labels mode config w ≠ (Ok spec, w').
Proof.
  intros Hp He Ht H. unfold get_estimator_spec in H.
  apply bind_inv in H as (inference & w1 & _ & H).
  apply bind_inv in H as (predictions & w2 & _ & H).
  apply bind_inv in H as (k & w3 & Hk & H).
  destruct (tf_attr_inv _ _ _ _ _ _ (tf_attr_PREDICT w2) Hk) as [-> ->].
  rewrite (eqb_PREDICT_ne _ Hp) in H.
  apply bind_inv in H as (inference_loss & w4 & _ & H).
  apply bind_inv in H as (loss & w5 & _ & H).
  apply bind_inv in H as (k & w6 & Hk' & H).
  destruct (tf_attr_inv _ _ _ _ _ _ (tf_attr_EVAL w5) Hk') as [-> ->].
  rewrite (eqb_EVAL_ne _ He) in H.
  apply bind_inv in H as (step & w7 & _ & H).
  apply bind_inv in H as (ops & w8 & _ & H).
  apply bind_inv in H as (train_op & w9 & _ & H).
  apply bind_inv in H as (k & w10 & Hk'' & H).
  destruct (tf_attr_inv _ _ _ _ _ _ (tf_attr_TRAIN w9) Hk'') as [-> ->].
  rewrite (eqb_TRAIN_ne _ Ht) in H.
  discriminate.
Qed.

Lemma reaches_loss_exists (self : ModelBuilder) (features labels : value)
    (mode : string) (w : World) :
  estimator_callbacks_return self →
  ∃ inference predictions loss w4,
    reaches_loss self features labels mode w inference predictions loss w4.
Proof.
  intros (Hi & Hp & Hl & _).
  destruct (Hi features mode (graph w)) as (inference & g1 & H1).
  destruct (Hp inference g1) as (predictions & g2 & H2).
  destruct (Hl inference labels g2) as (inference_loss & g3 & H3).
  destruct (get_total_loss_returns inference_loss
              (mkWorld g3
                 (calls w ++ [Method "get_inference" [features; VStr mode];
                              Method "get_predictions" [inference];
                              Method "get_inference_loss" [inference; labels]])
                 (sess_steps w))) as (loss & w4 & H4).
  exists inference, predictions, loss, w4.
  exists g1, g2, inference_loss, g3. auto.
Qed.

(** C8. For a mode that is none of PREDICT, EVAL and TRAIN,
    [get_estimator_spec] never returns a spec, and once the subclass
    callbacks have returned it raises [ValueError] with a message that
    names the mode. *)
Theorem get_estimator_spec_unrecognized_mode (self : ModelBuilder)
    (features labels config : value) (mode : string) (w : World) :
  mode ≠ PREDICT → mode ≠ EVAL → mode ≠ TRAIN →
  (∀ spec w',
     get_estimator_spec self features labels mode config w ≠ (Ok spec, w')) ∧
  (estimator_callbacks_return self →
   ∃ w', get_estimator_spec self features labels mode config w =
           (Raise (ValueError ("Unrecognized mode " +:+ mode)), w')).
Proof.
  intros Hp He Ht. split.
  - intros spec w'. apply get_estimator_spec_never_returns; assumption.
  - intros Hc.
    destruct (reaches_loss_exists self features labels mode w Hc)
      as (inference & predictions & loss & w4 & H).
    destruct (tf_train_get_or_create_global_step_returns w4)
      as (step & w5 & H5 & _).
    destruct Hc as (_ & _ & _ & Hop).
    destruct (Hop loss step (in_update_block (graph w5))) as (train_op & g6 & H6).
    eexists.
    erewrite get_estimator_spec_train_op; try eassumption.
    rewrite (eqb_TRAIN_ne _ Ht). reflexivity.
Qed.

Lemma example_callbacks_return : estimator_callbacks_return Example.builder.
Proof.
  unfold estimator_callbacks_return, returns; cbn.
  repeat split; intros; eexists; eexists; reflexivity.
Defined.

Lemma get_estimator_spec_unrecognized_mode_witness :
  ∃ w', get_estimator_spec Example.builder (VTensor (TSym "x"))
          (VTensor (TSym "y")) "fit" VNone Example.world =
        (Raise (ValueError "Unrecognized mode fit"), w').
Proof.
  refine (proj2 (get_estimator_spec_unrecognized_mode Example.builder
                   (VTensor (TSym "x")) (VTensor (TSym "y")) VNone "fit"
                   Example.world _ _ _) example_callbacks_return);
    discriminate.
Defined.

(** ** Control dependencies of the train op *)

Lemma in_update_block_stack (g : Graph) (u : op) :
  u ∈ update_ops g → u ∈ concat (control_stack (in_update_block g)).
Proof.
  intros H. unfold in_update_block, set_control_stack; cbn.
  apply elem_of_app. left. exact H.
Qed.

(** C10. In TRAIN mode [get_estimator_spec] calls [get_train_op] with the
    total loss and the global step, on a graph whose control-dependency
    stack has the UPDATE_OPS collection on top; the op it returns is the
    spec's train op.  Hence, when [get_train_op] creates its op there,
    every collected update op is a control input of the train op. *)
Theorem train_op_under_update_ops (self : ModelBuilder)
    (features labels config : value) (w w4 w5 : World)
    (inference predictions : value) (loss step : tensor)
    (train_op : op) (g6 : Graph) :
  reaches_loss self features labels TRAIN w inference predictions loss w4 →
  tf_train_get_or_create_global_step w4 = (Ok step, w5) →
  get_train_op self loss step (in_update_block (graph w5)) = (Ok train_op, g6) →
  (∃ spec w',
     get_estimator_spec self features labels TRAIN config w = (Ok spec, w') ∧
     spec_train_op spec = VOp train_op ∧
     spec_loss spec = VTensor loss ∧
     calls w' =
       calls w5 ++ [Method "get_train_op" [VTensor loss; VTensor step]]) ∧
  head (control_stack (in_update_block (graph w5))) = Some (update_ops (graph w4)) ∧
  (honours_control_dependencies (get_train_op self loss step) →
   ∀ u, u ∈ update_ops (graph w4) → u ∈ op_control_inputs train_op).
Proof.
  intros H H5 H6.
  assert (Hu : update_ops (graph w5) = update_ops (graph w4)).
  { destruct (tf_train_get_or_create_global_step_returns w4)
      as (step' & w5' & H5' & Hu).
    rewrite H5 in H5'. injection H5' as _ <-. exact Hu. }
  split; [ | split ].
  - eexists. eexists. split.
    + erewrite get_estimator_spec_train_op; try eassumption; try discriminate.
      reflexivity.
    + cbn. auto.
  - cbn. rewrite Hu. reflexivity.
  - intros Hh u Hin. eapply Hh; [ exact H6 | ].
    apply in_update_block_stack. rewrite Hu. exact Hin.
Qed.

Lemma tf_create_op_honours (name : string) (inputs : list tensor) :
  honours_control_dependencies (tf_create_op name inputs).
Proof.
  intros g o g' H u Hu. unfold tf_create_op in H.
  injection H as <- <-. exact Hu.
Qed.

Lemma train_op_under_update_ops_witness :
  ∃ spec w' train_op,
    get_estimator_spec Example.builder (VTensor (TSym "x")) (VTensor (TSym "y"))
      TRAIN VNone Example.world = (Ok spec, w') ∧
    spec_train_op spec = VOp train_op ∧
    Example.moving_average ∈ op_control_inputs train_op.
Proof.
  edestruct (train_op_under_update_ops Example.builder (VTensor (TSym "x"))
               (VTensor (TSym "y")) VNone Example.world)
    as ((spec & w' & Hrun & Hop & _) & _ & Hdeps).
  - unfold reaches_loss. do 4 eexists.
    split; [ | split; [ | split ] ]; [ reflexivity | reflexivity | reflexivity | ].
    erewrite get_total_loss_nonempty; reflexivity.
  - cbn. reflexivity.
  - cbn. reflexivity.
  - exists spec, w'. eexists. split; [ exact Hrun | split; [ exact Hop | ] ].
    apply Hdeps.
    + apply tf_create_op_honours.
    + cbn. apply list_elem_of_here.
Defined.

(** ** get_inputs *)

Lemma get_inputs_TRAIN (self : ModelBuilder) (w : World) :
  get_inputs self TRAIN w = get_train_inputs_default self w.
Proof. reflexivity. Qed.

Lemma get_inputs_not_TRAIN (self : ModelBuilder) (mode : string) (w : World) :
  mode ≠ TRAIN →
  get_inputs self mode w = (Raise (AttributeError "esitmator"), w).
Proof.
  intros H. unfold get_inputs.
  erewrite bind_ok; [ | apply tf_attr_TRAIN ]. cbn beta iota.
  rewrite (eqb_TRAIN_ne _ H).
  erewrite bind_raise; [ reflexivity | apply tf_attr_esitmator ].
Qed.

(** C3. [get_inputs] is meant to redirect TRAIN, EVAL and the prediction
    mode to the matching input callback.  The code does so for TRAIN only:
    with the EVAL key, and with the prediction key, evaluating the second
    test looks up the attribute [esitmator] on the [tf] module and raises
    [AttributeError] before any input callback is called. *)
Theorem get_inputs_EVAL_and_PREDICT_raise (self : ModelBuilder) (w : World) :
  get_inputs self EVAL w = (Raise (AttributeError "esitmator"), w) ∧
  get_inputs self PREDICT w = (Raise (AttributeError "esitmator"), w) ∧
  get_inputs self TRAIN w = get_train_inputs_default self w.
Proof.
  split; [ | split ].
  - apply get_inputs_not_TRAIN. discriminate.
  - apply get_inputs_not_TRAIN. discriminate.
  - apply get_inputs_TRAIN.
Qed.

(** ** Input pipelines *)

Lemma batch_size_ok (self : ModelBuilder) (b : Z) (w : World) :
  params self !! "batch_size" = Some b → batch_size self w = (Ok b, w).
Proof. intros H. unfold batch_size. rewrite H. reflexivity. Qed.

Lemma get_train_inputs_run (self : ModelBuilder) (w : World) (b : Z)
    (d : dataset) (g : Graph) (shuffle : bool) (repeat_count : option Z)
    (shuffle_buffer_size : Z) :
  params self !! "batch_size" = Some b →
  get_train_dataset self (graph w) = (Ok d, g) →
  get_train_inputs self shuffle repeat_count shuffle_buffer_size w =
    iterate_pairs (DBatch b (DRepeat repeat_count (DShuffle shuffle_buffer_size d)))
      (mkWorld g (calls w ++ [Method "get_train_dataset" []]) (sess_steps w)).
Proof.
  intros Hb Hd. unfold get_train_inputs.
  step_ok Hd.
  erewrite bind_ok; [ | apply batch_size_ok; exact Hb ].
  reflexivity.
Qed.

Lemma get_eval_inputs_run (self : ModelBuilder) (w : World) (b : Z)
    (d : dataset) (g : Graph) :
  params self !! "batch_size" = Some b →
  get_eval_dataset self (graph w) = (Ok d, g) →
  get_eval_inputs self w =
    iterate_pairs (DBatch b d)
      (mkWorld g (calls w ++ [Method "get_eval_dataset" []]) (sess_steps w)).
Proof.
  intros Hb Hd. unfold get_eval_inputs.
  step_ok Hd.
  erewrite bind_ok; [ | apply batch_size_ok; exact Hb ].
  reflexivity.
Qed.

Lemma get_predict_inputs_run (self : ModelBuilder) (w : World) (b : Z)
    (d : dataset) (g : Graph) :
  params self !! "batch_size" = Some b →
  get_predict_dataset self (graph w) = (Ok d, g) →
  get_predict_inputs self w =
    (Ok (VTuple [make_one_shot_iterator_get_next (DBatch b d); VNone]),
     mkWorld g (calls w ++ [Method "get_predict_dataset" []]) (sess_steps w)).
Proof.
  intros Hb Hd. unfold get_predict_inputs.
  step_ok Hd.
  erewrite bind_ok; [ | apply batch_size_ok; exact Hb ].
  reflexivity.
Qed.

(** C4. With batch size [b]: [get_train_inputs] iterates the training
    dataset shuffled, then repeated, then batched by [b], and its defaults
    are a buffer of 10000 and an unbounded repeat; [get_eval_inputs] and
    [get_predict_inputs] iterate their dataset batched by [b] and nothing
    else. *)
Theorem input_pipelines (self : ModelBuilder) (w : World) (b : Z) :
  params self !! "batch_size" = Some b →
  let after (name : string) (g : Graph) :=
    mkWorld g (calls w ++ [Method name []]) (sess_steps w) in
  (∀ d g shuffle repeat_count shuffle_buffer_size,
     get_train_dataset self (graph w) = (Ok d, g) →
     get_train_inputs self shuffle repeat_count shuffle_buffer_size w =
       iterate_pairs
         (DBatch b (DRepeat repeat_count (DShuffle shuffle_buffer_size d)))
         (after "get_train_dataset" g) ∧
     get_train_inputs_default self w =
       iterate_pairs (DBatch b (DRepeat None (DShuffle 10000 d)))
         (after "get_train_dataset" g)) ∧
  (∀ d g,
     get_eval_dataset self (graph w) = (Ok d, g) →
     get_eval_inputs self w =
       iterate_pairs (DBatch b d) (after "get_eval_dataset" g)) ∧
  (∀ d g,
     get_predict_dataset self (graph w) = (Ok d, g) →
     get_predict_inputs self w =
       (Ok (VTuple [make_one_shot_iterator_get_next (DBatch b d); VNone]),
        after "get_predict_dataset" g)).
Proof.
  intros Hb after. split; [ | split ].
  - intros d g shuffle repeat_count shuffle_buffer_size Hd. split.
    + apply get_train_inputs_run; assumption.
    + apply get_train_inputs_run; assumption.
  - intros d g Hd. apply get_eval_inputs_run; assumption.
  - intros d g Hd. apply get_predict_inputs_run; assumption.
Qed.

Lemma input_pipelines_witness :
  let train := DSource "train_examples" (STuple [SLeaf; SLeaf]) in
  let eval_ := DSource "eval_examples" (STuple [SLeaf; SLeaf]) in
  let pipeline := DBatch 32 (DRepeat None (DShuffle 10000 train)) in
  fst (get_train_inputs_default Example.builder Example.world) =
    Ok (VTuple [VTensor (TNext pipeline [0%nat]); VTensor (TNext pipeline [1%nat])]) ∧
  fst (get_eval_inputs Example.builder Example.world) =
    Ok (VTuple [VTensor (TNext (DBatch 32 eval_) [0%nat]);
                VTensor (TNext (DBatch 32 eval_) [1%nat])]).
Proof.
  intros train eval_ pipeline.
  destruct (input_pipelines Example.builder Example.world 32 eq_refl)
    as (Ht & He & _).
  split.
  - destruct (Ht train empty_graph true None 10000 eq_refl) as [_ ->].
    reflexivity.
  - rewrite (He eval_ empty_graph eq_refl). reflexivity.
Defined.

(** C9. Whatever [get_predict_inputs] returns is a pair whose second
    component is [None]; and it does return, with the batched features
    first, once the predict dataset and the batch size are there. *)
Theorem get_predict_inputs_labels_None (self : ModelBuilder) (w : World) :
  (∀ v w', get_predict_inputs self w = (Ok v, w') →
           ∃ features, v = VTuple [features; VNone]) ∧
  (∀ d g b,
     get_predict_dataset self (graph w) = (Ok d, g) →
     params self !! "batch_size" = Some b →
     get_predict_inputs self w =
       (Ok (VTuple [make_one_shot_iterator_get_next (DBatch b d); VNone]),
        mkWorld g (calls w ++ [Method "get_predict_dataset" []]) (sess_steps w))).
Proof.
  split.
  - intros v w' H. unfold get_predict_inputs in H.
    apply bind_inv in H as (d & w1 & _ & H).
    apply bind_inv in H as (b & w2 & _ & H).
    injection H as <- _. eauto.
  - intros d g b Hd Hb. apply get_predict_inputs_run; assumption.
Qed.

Lemma get_predict_inputs_labels_None_witness :
  fst (get_predict_inputs Example.builder Example.world) =
    Ok (VTuple
          [VDict [("x", VTensor
                          (TNext (DBatch 32 (DSource "predict_examples"
                                               (SDict [("x", SLeaf)])))
                                 [0%nat]))];
           VNone]).
Proof.
  rewrite (proj2 (get_predict_inputs_labels_None Example.builder Example.world)
             (DSource "predict_examples" (SDict [("x", SLeaf)]))
             empty_graph 32 eq_refl eq_refl).
  reflexivity.
Defined.

(** ** The abstract methods of the base class *)

(** With nothing overridden, [get_estimator_spec] stops at its first call,
    whatever the mode. *)
Lemma base_get_estimator_spec_raises (id : string) (ps : gmap string Z)
    (features labels config : value) (mode : string) (w : World) :
  get_estimator_spec (base id ps) features labels mode config w =
    (Raise (NotImplementedError "Abstract method"),
     mkWorld (graph w)
       (calls w ++ [Method "get_inference" [features; VStr mode]])
       (sess_steps w)).
Proof. reflexivity. Qed.

(** C5. In the base class each of the six methods a subclass must supply
    raises [NotImplementedError], whatever its arguments and the graph,
    and so never returns a value. *)
Theorem base_abstract_methods_raise (id : string) (ps : gmap string Z) :
  let e := NotImplementedError "Abstract method" in
  let self := base id ps in
  (∀ features mode g, get_inference self features mode g = (Raise e, g)) ∧
  (∀ inference labels g, get_inference_loss self inference labels g = (Raise e, g)) ∧
  (∀ loss step g, get_train_op self loss step g = (Raise e, g)) ∧
  (∀ g, get_train_dataset self g = (Raise e, g)) ∧
  (∀ g, get_eval_dataset self g = (Raise e, g)) ∧
  (∀ g, get_predict_dataset self g = (Raise e, g)).
Proof. cbn. repeat split. Qed.

(** ** Life-cycle wrappers *)

(** C6. [train], [predict] and [eval] each build the estimator from
    [get_estimator_spec] and [model_dir] (with the given config) and make
    one call on it: [train] with [get_train_inputs], returning [None];
    [predict] with [get_predict_inputs] and [eval], through [evaluate],
    with [get_eval_inputs], both returning the framework's result. *)
Theorem lifecycle_wrappers_delegate (env : Env) (self : ModelBuilder)
    (config : value) (kwargs : list (string * value)) (w : World) :
  let estimator :=
    mkEstimator "get_estimator_spec"
      (os_path_join (os_path_join (module_dir env) "estimator") (model_id self))
      config in
  let logged (entry input_fn : string) :=
    mkWorld (graph w)
      (calls w ++ [EstimatorCall entry estimator input_fn kwargs])
      (sess_steps w) in
  train env self config kwargs w =
    (match estimator_result env "train" estimator "get_train_inputs" kwargs with
     | Ok _ => Ok VNone
     | Raise e => Raise e
     | OutOfFuel => OutOfFuel
     end, logged "train" "get_train_inputs") ∧
  predict env self config kwargs w =
    (estimator_result env "predict" estimator "get_predict_inputs" kwargs,
     logged "predict" "get_predict_inputs") ∧
  eval env self config kwargs w =
    (estimator_result env "evaluate" estimator "get_eval_inputs" kwargs,
     logged "evaluate" "get_eval_inputs").
Proof.
  intros estimator logged.
  unfold train, predict, eval, estimator_call, get_estimator, model_dir,
    estimator_dir, mbind, M_bind, log, answer.
  fold estimator. cbn.
  split; [ | split ].
  - destruct (estimator_result env "train" estimator "get_train_inputs" kwargs);
      reflexivity.
  - reflexivity.
  - reflexivity.
Qed.

(** ** Visualization loops *)

Lemma sess_run_ok (env : Env) (fetches : list value) (results : list data)
    (g : Graph) (cs : list Call) (k : nat) :
  run_fetches (run_fetch env k) fetches = Ok results →
  sess_run env fetches (mkWorld g cs k) =
    (Ok results, mkWorld g (cs ++ [SessionRun fetches]) (S k)).
Proof. intros H. unfold sess_run. cbn. rewrite H. reflexivity. Qed.

Lemma invoke_vis_ok (name : string) (args : list data) (r : value) (w : World) :
  invoke_vis name args (Ok r) w =
    (Ok (), mkWorld (graph w) (calls w ++ [Vis name args]) (sess_steps w)).
Proof. reflexivity. Qed.

(** * Further properties of the builder

    The sections below cover behaviour of the same methods that the
    theorems above leave open: missing hyper-parameters, datasets of the
    wrong structure, exceptions on the way, and what each method leaves
    untouched. *)

(** ** Input pipelines: edge cases *)

Lemma batch_size_missing (self : ModelBuilder) (w : World) :
  params self !! "batch_size" = None →
  batch_size self w = (Raise (KeyError "batch_size"), w).
Proof. intros H. unfold batch_size. rewrite H. reflexivity. Qed.

(** X1. When [params] has no ['batch_size'] entry, each of the three input
    methods raises [KeyError] for that key; the dataset callback has been
    called by then, and nothing else has happened. *)
Theorem inputs_without_batch_size (self : ModelBuilder) (w : World) :
  params self !! "batch_size" = None →
  let after (name : string) (g : Graph) :=
    (Raise (KeyError "batch_size") : outcome value,
     mkWorld g (calls w ++ [Method name []]) (sess_steps w)) in
  (∀ d g shuffle repeat_count shuffle_buffer_size,
     get_train_dataset self (graph w) = (Ok d, g) →
     get_train_inputs self shuffle repeat_count shuffle_buffer_size w =
       after "get_train_dataset" g) ∧
  (∀ d g, get_eval_dataset self (graph w) = (Ok d, g) →
          get_eval_inputs self w = after "get_eval_dataset" g) ∧
  (∀ d g, get_predict_dataset self (graph w) = (Ok d, g) →
          get_predict_inputs self w = after "get_predict_dataset" g).
Proof.
  intros Hb after. split; [ | split ].
  - intros d g shuffle repeat_count shuffle_buffer_size Hd.
    unfold get_train_inputs. step_ok Hd.
    erewrite bind_raise; [ reflexivity | apply batch_size_missing; exact Hb ].
  - intros d g Hd. unfold get_eval_inputs. step_ok Hd.
    erewrite bind_raise; [ reflexivity | apply batch_size_missing; exact Hb ].
  - intros d g Hd. unfold get_predict_inputs. step_ok Hd.
    erewrite bind_raise; [ reflexivity | apply batch_size_missing; exact Hb ].
Qed.

Lemma inputs_without_batch_size_witness :
  let self := Variants.with_params ∅ in
  fst (get_train_inputs_default self Example.world) = Raise (KeyError "batch_size") ∧
  fst (get_eval_inputs self Example.world) = Raise (KeyError "batch_size") ∧
  fst (get_predict_inputs self Example.world) = Raise (KeyError "batch_size").
Proof.
  intros self.
  destruct (inputs_without_batch_size self Example.world eq_refl)
    as (Ht & He & Hp).
  split; [ | split ].
  - unfold get_train_inputs_default.
    erewrite Ht; reflexivity.
  - erewrite He; reflexivity.
  - erewrite Hp; reflexivity.
Defined.

Lemma iterate_pairs_pair (d : dataset) (s1 s2 : shape) (w : World) :
  element_shape d = STuple [s1; s2] →
  iterate_pairs d w =
    (Ok (VTuple [next_at d [0%nat] s1; next_at d [1%nat] s2]), w).
Proof.
  intros H. unfold iterate_pairs, make_one_shot_iterator_get_next.
  rewrite H. reflexivity.
Qed.

(** X2. When the elements of the dataset are pairs, [get_train_inputs]
    and [get_eval_inputs] return the first component of the iterator's
    output as features and the second as labels.  For the training inputs
    this holds whatever the [shuffle] flag: the pipeline is shuffled even
    when the flag is off. *)
Theorem inputs_are_the_pair_components (self : ModelBuilder) (w : World)
    (b : Z) (d : dataset) (g : Graph) (s1 s2 : shape) :
  params self !! "batch_size" = Some b →
  element_shape d = STuple [s1; s2] →
  (get_train_dataset self (graph w) = (Ok d, g) →
   ∀ shuffle repeat_count shuffle_buffer_size,
     let pipeline :=
       DBatch b (DRepeat repeat_count (DShuffle shuffle_buffer_size d)) in
     fst (get_train_inputs self shuffle repeat_count shuffle_buffer_size w) =
       Ok (VTuple [next_at pipeline [0%nat] s1; next_at pipeline [1%nat] s2])) ∧
  (get_eval_dataset self (graph w) = (Ok d, g) →
   fst (get_eval_inputs self w) =
     Ok (VTuple [next_at (DBatch b d) [0%nat] s1;
                 next_at (DBatch b d) [1%nat] s2])).
Proof.
  intros Hb Hs. split.
  - intros Hd shuffle repeat_count shuffle_buffer_size pipeline.
    rewrite (get_train_inputs_run self w b d g _ _ _ Hb Hd).
    rewrite (iterate_pairs_pair _ s1 s2); [ reflexivity | exact Hs ].
  - intros Hd.
    rewrite (get_eval_inputs_run self w b d g Hb Hd).
    rewrite (iterate_pairs_pair _ s1 s2); [ reflexivity | exact Hs ].
Qed.

Lemma inputs_are_the_pair_components_witness :
  let train := DSource "train_examples" (STuple [SLeaf; SLeaf]) in
  let pipeline := DBatch 32 (DRepeat (Some 3) (DShuffle 50 train)) in
  fst (get_train_inputs Example.builder false (Some 3) 50 Example.world) =
    Ok (VTuple [VTensor (TNext pipeline [0%nat]); VTensor (TNext pipeline [1%nat])]).
Proof.
  intros train pipeline.
  exact (proj1 (inputs_are_the_pair_components Example.builder Example.world
                  32 train empty_graph SLeaf SLeaf eq_refl eq_refl)
               eq_refl false (Some 3) 50).
Defined.

Lemma next_at_tuple_length (d : dataset) (path : list nat) (l : list shape) (i : nat) :
  length ((fix go (i : nat) (l : list shape) : list value :=
             match l with
             | [] => []
             | s' :: l' => next_at d (i :: path) s' :: go (S i) l'
             end) i l) = length l.
Proof.
  revert i. induction l as [|s l IH]; intros i.
  - reflexivity.
  - cbn [length]. f_equal. apply IH.
Qed.

Lemma next_at_tuple (d : dataset) (path : list nat) (l : list shape) :
  ∃ l', next_at d path (STuple l) = VTuple l' ∧ length l' = length l.
Proof.
  eexists. split; [ reflexivity | ]. apply next_at_tuple_length.
Qed.

Lemma unpack2_wrong_length (l : list value) (w : World) :
  length l ≠ 2%nat →
  ∃ msg, unpack2 (VTuple l) w = (Raise (ValueError msg), w).
Proof.
  intros H. destruct l as [|a [|b [|c l]]]; cbn in *;
    try congruence; eexists; reflexivity.
Qed.

Lemma iterate_pairs_wrong_length (d : dataset) (l : list shape) (w : World) :
  element_shape d = STuple l → length l ≠ 2%nat →
  ∃ msg, iterate_pairs d w = (Raise (ValueError msg), w).
Proof.
  intros Hs Hl. unfold iterate_pairs, make_one_shot_iterator_get_next.
  rewrite Hs. destruct (next_at_tuple d [] l) as (l' & -> & Hlen).
  destruct (unpack2_wrong_length l' w) as [msg Hmsg]; [ congruence | ].
  exists msg. erewrite bind_raise; [ reflexivity | exact Hmsg ].
Qed.

(** X3. When the elements of the dataset are tuples of any length other
    than two, [get_train_inputs] and [get_eval_inputs] raise [ValueError]
    from the unpacking of the iterator's output, after the dataset
    callback has run. *)
Theorem inputs_of_wrong_arity (self : ModelBuilder) (w : World)
    (b : Z) (d : dataset) (g : Graph) (l : list shape) :
  params self !! "batch_size" = Some b →
  element_shape d = STuple l → length l ≠ 2%nat →
  (get_train_dataset self (graph w) = (Ok d, g) →
   ∀ shuffle repeat_count shuffle_buffer_size,
   ∃ msg,
     get_train_inputs self shuffle repeat_count shuffle_buffer_size w =
       (Raise (ValueError msg),
        mkWorld g (calls w ++ [Method "get_train_dataset" []]) (sess_steps w))) ∧
  (get_eval_dataset self (graph w) = (Ok d, g) →
   ∃ msg,
     get_eval_inputs self w =
       (Raise (ValueError msg),
        mkWorld g (calls w ++ [Method "get_eval_dataset" []]) (sess_steps w))).
Proof.
  intros Hb Hs Hl. split.
  - intros Hd shuffle repeat_count shuffle_buffer_size.
    rewrite (get_train_inputs_run self w b d g _ _ _ Hb Hd).
    apply (iterate_pairs_wrong_length _ l); [ exact Hs | exact Hl ].
  - intros Hd.
    rewrite (get_eval_inputs_run self w b d g Hb Hd).
    apply (iterate_pairs_wrong_length _ l); [ exact Hs | exact Hl ].
Qed.

Lemma inputs_of_wrong_arity_witness :
  let triples := DSource "triples" (STuple [SLeaf; SLeaf; SLeaf]) in
  ∃ msg,
    fst (get_train_inputs_default (Variants.with_train_dataset triples)
           Example.world) = Raise (ValueError msg).
Proof.
  intros triples.
  destruct (proj1 (inputs_of_wrong_arity (Variants.with_train_dataset triples)
                     Example.world 32 triples empty_graph
                     [SLeaf; SLeaf; SLeaf] eq_refl eq_refl ltac:(discriminate))
                  eq_refl true None 10000) as [msg H].
  exists msg. unfold get_train_inputs_default. rewrite H. reflexivity.
Defined.

(** ** Frame lemmas: what a computation leaves as it was *)

Lemma respects_bind {A B : Type} (R : World → World → Prop) `{!PreOrder R}
    (m : M A) (f : A → M B) :
  respects R m → (∀ a, respects R (f a)) → respects R (m ≫= f).
Proof.
  intros Hm Hf w r w' H. unfold mbind, M_bind in H.
  destruct (m w) as [[a|e|] w1] eqn:E.
  - transitivity w1; [ eapply Hm; exact E | eapply Hf; exact H ].
  - injection H as <- <-. eapply Hm; exact E.
  - injection H as <- <-. eapply Hm; exact E.
Qed.

Lemma respects_unchanged {A : Type} (R : World → World → Prop) `{!Reflexive R}
    (m : M A) :
  (∀ w, snd (m w) = w) → respects R m.
Proof.
  intros Hm w r w' H. specialize (Hm w). rewrite H in Hm. cbn in Hm.
  subst w'. reflexivity.
Qed.

Lemma respects_tf_attr {B : Type} (R : World → World → Prop)
    (path : list string) (s : string) (f : string → M B) :
  (∀ w, tf_attr path w = (Ok s, w)) →
  respects R (f s) → respects R (tf_attr path ≫= f).
Proof.
  intros Hs Hf w r w' H. erewrite bind_ok in H; [ | apply Hs ].
  eapply Hf; exact H.
Qed.

Lemma tf_attr_unchanged (path : list string) (w : World) :
  snd (tf_attr path w) = w.
Proof. unfold tf_attr. repeat case_match; reflexivity. Qed.

Lemma EstimatorSpec_unchanged (kw : gmap string value) (w : World) :
  snd (tf_estimator_EstimatorSpec kw w) = w.
Proof. unfold tf_estimator_EstimatorSpec. case_match; reflexivity. Qed.

Lemma unpack2_unchanged (v : value) (w : World) : snd (unpack2 v w) = w.
Proof. unfold unpack2. repeat case_match; reflexivity. Qed.

Lemma batch_size_unchanged (self : ModelBuilder) (w : World) :
  snd (batch_size self w) = w.
Proof. unfold batch_size. case_match; reflexivity. Qed.

Lemma read_local_unchanged (name : string) (x : option value) (w : World) :
  snd (read_local name x w) = w.
Proof. destruct x; reflexivity. Qed.

(** *** The call log *)

Global Instance logs_only_preorder (names : list string) :
  PreOrder (logs_only names).
Proof.
  split.
  - intros w. exists []. split; [ symmetry; apply app_nil_r | constructor ].
  - intros w1 w2 w3 (l1 & H1 & F1) (l2 & H2 & F2).
    exists (l1 ++ l2). split.
    + rewrite H2, H1. symmetry. apply app_assoc.
    + apply Forall_app. split; assumption.
Qed.

Lemma logs_only_calls (names : list string) (w1 w2 w1' w2' : World) :
  calls w1' = calls w1 → calls w2' = calls w2 →
  logs_only names w1 w2 → logs_only names w1' w2'.
Proof.
  intros E1 E2 (l & H & F). exists l. rewrite E1, E2. split; assumption.
Qed.

Lemma logs_only_mono (names names' : list string) (w w' : World) :
  names ⊆ names' → logs_only names w w' → logs_only names' w w'.
Proof.
  intros Hsub (l & H & F). exists l. split; [ exact H | ].
  eapply Forall_impl; [ exact F | ]. intros c Hc. apply Hsub. exact Hc.
Qed.

Lemma respects_logs_mono {A : Type} (names names' : list string) (m : M A) :
  names ⊆ names' →
  respects (logs_only names) m → respects (logs_only names') m.
Proof.
  intros Hsub Hm w r w' H. eapply logs_only_mono; [ exact Hsub | ].
  eapply Hm; exact H.
Qed.

Lemma respects_logs_same_calls {A : Type} (names : list string) (m : M A) :
  (∀ w, calls (snd (m w)) = calls w) → respects (logs_only names) m.
Proof.
  intros Hm w r w' H. specialize (Hm w). rewrite H in Hm. cbn in Hm.
  apply (logs_only_calls names w w); [ reflexivity | exact Hm | reflexivity ].
Qed.

Lemma log_logs (names : list string) (c : Call) :
  call_name c ∈ names → respects (logs_only names) (log c).
Proof.
  intros Hc w r w' H. unfold log in H. injection H as _ <-.
  exists [c]. split; [ reflexivity | ]. repeat constructor. exact Hc.
Qed.

Lemma lift_logs {A : Type} (names : list string) (c : Cb A) :
  respects (logs_only names) (lift c).
Proof.
  apply respects_logs_same_calls. intros w. unfold lift.
  destruct (c (graph w)); reflexivity.
Qed.

Lemma invoke_logs {A : Type} (names : list string) (name : string)
    (args : list value) (c : Cb A) :
  name ∈ names → respects (logs_only names) (invoke name args c).
Proof.
  intros Hn. unfold invoke. apply respects_bind; [ typeclasses eauto | | ].
  - apply log_logs. exact Hn.
  - intros _. apply lift_logs.
Qed.

Lemma get_total_loss_logs (names : list string) (inference_loss : tensor) :
  respects (logs_only names) (get_total_loss inference_loss).
Proof.
  apply respects_logs_same_calls. intros w.
  destruct (regularization_losses (graph w)) as [|r rs] eqn:E.
  - rewrite (get_total_loss_empty _ _ E). reflexivity.
  - rewrite (get_total_loss_nonempty _ _ _ _ E). reflexivity.
Qed.

Lemma global_step_logs (names : list string) :
  respects (logs_only names) tf_train_get_or_create_global_step.
Proof.
  apply respects_logs_same_calls. intros w.
  unfold tf_train_get_or_create_global_step.
  destruct (global_step (graph w)); reflexivity.
Qed.

Lemma with_control_dependencies_logs {A : Type} (names : list string)
    (control_inputs : list op) (body : M A) :
  respects (logs_only names) body →
  respects (logs_only names) (with_control_dependencies control_inputs body).
Proof.
  intros Hb w r w' H. unfold with_control_dependencies in H.
  destruct (body _) as [r2 w2] eqn:E. injection H as _ <-.
  eapply logs_only_calls; [ | | eapply Hb; exact E ]; reflexivity.
Qed.

Lemma get_estimator_spec_logs (self : ModelBuilder)
    (features labels config : value) (mode : string) :
  respects (logs_only (callbacks_of_mode mode))
    (get_estimator_spec self features labels mode config).
Proof.
  unfold get_estimator_spec, callbacks_of_mode.
  apply respects_bind; [ typeclasses eauto | | intros inference ].
  { apply invoke_logs. repeat case_match; set_solver. }
  apply respects_bind; [ typeclasses eauto | | intros predictions ].
  { apply invoke_logs. repeat case_match; set_solver. }
  apply (respects_tf_attr _ _ PREDICT); [ exact tf_attr_PREDICT | ].
  destruct (String.eqb mode PREDICT).
  { apply respects_unchanged; [ typeclasses eauto | ].
    apply EstimatorSpec_unchanged. }
  apply respects_bind; [ typeclasses eauto | | intros inference_loss ].
  { apply invoke_logs. repeat case_match; set_solver. }
  apply respects_bind; [ typeclasses eauto | | intros loss ].
  { apply get_total_loss_logs. }
  apply (respects_tf_attr _ _ EVAL); [ exact tf_attr_EVAL | ].
  destruct (String.eqb mode EVAL).
  { apply respects_bind; [ typeclasses eauto | | intros metrics ].
    - apply invoke_logs. set_solver.
    - apply respects_unchanged; [ typeclasses eauto | ].
      apply EstimatorSpec_unchanged. }
  apply respects_bind; [ typeclasses eauto | | intros step ].
  { apply global_step_logs. }
  apply respects_bind; [ typeclasses eauto | | intros ops ].
  { apply respects_unchanged; [ typeclasses eauto | reflexivity ]. }
  apply respects_bind; [ typeclasses eauto | | intros train_op ].
  { apply with_control_dependencies_logs. apply invoke_logs. set_solver. }
  apply (respects_tf_attr _ _ TRAIN); [ exact tf_attr_TRAIN | ].
  destruct (String.eqb mode TRAIN).
  - apply respects_unchanged; [ typeclasses eauto | ].
    apply EstimatorSpec_unchanged.
  - apply respects_unchanged; [ typeclasses eauto | reflexivity ].
Qed.

Ltac absurd_member H :=
  repeat (apply elem_of_cons in H as [H|H]; [ discriminate H | ]);
  apply elem_of_nil in H; exact H.

(** X7. Whatever the outcome of [get_estimator_spec] (a spec or an
    exception), the only calls it has logged are callbacks of its mode:
    [get_inference] and [get_predictions] in PREDICT mode, these two with
    [get_inference_loss] and [get_eval_metric_ops] in EVAL mode, and with
    [get_inference_loss] and [get_train_op] in every other mode.  So
    [get_train_op] is never called in PREDICT or EVAL mode and
    [get_eval_metric_ops] only in EVAL mode. *)
Theorem get_estimator_spec_calls_by_mode (self : ModelBuilder)
    (features labels config : value) (mode : string) (w : World) :
  ∃ l,
    calls (snd (get_estimator_spec self features labels mode config w)) =
      calls w ++ l ∧
    Forall (λ c, call_name c ∈ callbacks_of_mode mode) l ∧
    (mode = PREDICT ∨ mode = EVAL →
     Forall (λ c, call_name c ≠ "get_train_op") l) ∧
    (mode ≠ EVAL → Forall (λ c, call_name c ≠ "get_eval_metric_ops") l).
Proof.
  destruct (get_estimator_spec_logs self features labels config mode w
              (fst (get_estimator_spec self features labels mode config w))
              (snd (get_estimator_spec self features labels mode config w))
              (surjective_pairing _)) as (l & Hl & F).
  exists l. split; [ exact Hl | ]. split; [ exact F | ]. split.
  - intros Hm. eapply Forall_impl; [ exact F | ].
    intros c Hc E. cbn beta in Hc. rewrite E in Hc.
    unfold callbacks_of_mode in Hc.
    destruct Hm as [-> | ->]; cbn in Hc; absurd_member Hc.
  - intros Hm. eapply Forall_impl; [ exact F | ].
    intros c Hc E. cbn beta in Hc. rewrite E in Hc.
    unfold callbacks_of_mode in Hc. rewrite (eqb_EVAL_ne _ Hm) in Hc.
    destruct (String.eqb mode PREDICT); absurd_member Hc.
Qed.

(** *** The control-dependency stack *)

Global Instance same_stack_preorder : PreOrder same_stack.
Proof.
  split.
  - intros w. reflexivity.
  - intros w1 w2 w3 H1 H2. unfold same_stack in *. congruence.
Qed.

Lemma respects_same_graph {A : Type} (m : M A) :
  (∀ w, control_stack (graph (snd (m w))) = control_stack (graph w)) →
  respects same_stack m.
Proof.
  intros Hm w r w' H. specialize (Hm w). rewrite H in Hm. exact Hm.
Qed.

Lemma lift_keeps_stack {A : Type} (c : Cb A) :
  keeps_stack c → respects same_stack (lift c).
Proof.
  intros Hc w r w' H. unfold lift in H.
  destruct (c (graph w)) as [r1 g] eqn:E. injection H as _ <-.
  unfold same_stack. cbn. eapply Hc. exact E.
Qed.

Lemma invoke_keeps_stack {A : Type} (name : string) (args : list value) (c : Cb A) :
  keeps_stack c → respects same_stack (invoke name args c).
Proof.
  intros Hc. unfold invoke. apply respects_bind; [ typeclasses eauto | | ].
  - apply respects_same_graph. reflexivity.
  - intros _. apply lift_keeps_stack. exact Hc.
Qed.

Lemma get_total_loss_keeps_stack (inference_loss : tensor) :
  respects same_stack (get_total_loss inference_loss).
Proof.
  apply respects_same_graph. intros w.
  destruct (regularization_losses (graph w)) as [|r rs] eqn:E.
  - rewrite (get_total_loss_empty _ _ E). reflexivity.
  - rewrite (get_total_loss_nonempty _ _ _ _ E). reflexivity.
Qed.

Lemma global_step_keeps_stack :
  respects same_stack tf_train_get_or_create_global_step.
Proof.
  apply respects_same_graph. intros w.
  unfold tf_train_get_or_create_global_step.
  destruct (global_step (graph w)); reflexivity.
Qed.

(** The block pops what it pushed, also when its body raises. *)
Lemma with_control_dependencies_keeps_stack {A : Type}
    (control_inputs : list op) (body : M A) :
  respects same_stack body →
  respects same_stack (with_control_dependencies control_inputs body).
Proof.
  intros Hb w r w' H. unfold with_control_dependencies in H.
  destruct (body _) as [r2 w2] eqn:E. injection H as _ <-.
  apply Hb in E. unfold same_stack in *. cbn in *. rewrite E. reflexivity.
Qed.

(** X6. If the callbacks leave the control-dependency stack as they find
    it, so does [get_estimator_spec], in every mode and also when a
    callback raises: the block around [get_train_op] pops the update ops
    it pushed. *)
Theorem get_estimator_spec_keeps_stack (self : ModelBuilder)
    (features labels config : value) (mode : string) (w : World) :
  estimator_callbacks_keep_stack self →
  control_stack (graph (snd (get_estimator_spec self features labels mode config w)))
    = control_stack (graph w).
Proof.
  intros (Hi & Hp & Hl & Hm & Ht).
  enough (H : respects same_stack
                (get_estimator_spec self features labels mode config)).
  { eapply H. apply surjective_pairing. }
  unfold get_estimator_spec.
  apply respects_bind; [ typeclasses eauto | | intros inference ].
  { apply invoke_keeps_stack, Hi. }
  apply respects_bind; [ typeclasses eauto | | intros predictions ].
  { apply invoke_keeps_stack, Hp. }
  apply respects_bind; [ typeclasses eauto | | intros k ].
  { apply respects_unchanged; [ typeclasses eauto | apply tf_attr_unchanged ]. }
  destruct (String.eqb mode k).
  { apply respects_unchanged; [ typeclasses eauto | ].
    apply EstimatorSpec_unchanged. }
  apply respects_bind; [ typeclasses eauto | | intros inference_loss ].
  { apply invoke_keeps_stack, Hl. }
  apply respects_bind; [ typeclasses eauto | | intros loss ].
  { apply get_total_loss_keeps_stack. }
  apply respects_bind; [ typeclasses eauto | | intros k' ].
  { apply respects_unchanged; [ typeclasses eauto | apply tf_attr_unchanged ]. }
  destruct (String.eqb mode k').
  { apply respects_bind; [ typeclasses eauto | | intros metrics ].
    - apply invoke_keeps_stack, Hm.
    - apply respects_unchanged; [ typeclasses eauto | ].
      apply EstimatorSpec_unchanged. }
  apply respects_bind; [ typeclasses eauto | | intros step ].
  { apply global_step_keeps_stack. }
  apply respects_bind; [ typeclasses eauto | | intros ops ].
  { apply respects_unchanged; [ typeclasses eauto | reflexivity ]. }
  apply respects_bind; [ typeclasses eauto | | intros train_op ].
  { apply with_control_dependencies_keeps_stack, invoke_keeps_stack, Ht. }
  apply respects_bind; [ typeclasses eauto | | intros k'' ].
  { apply respects_unchanged; [ typeclasses eauto | apply tf_attr_unchanged ]. }
  destruct (String.eqb mode k'').
  - apply respects_unchanged; [ typeclasses eauto | ].
    apply EstimatorSpec_unchanged.
  - apply respects_unchanged; [ typeclasses eauto | reflexivity ].
Qed.

Lemma example_callbacks_keep_stack :
  estimator_callbacks_keep_stack Example.builder.
Proof.
  unfold estimator_callbacks_keep_stack, keeps_stack; cbn.
  repeat split; intros; unfold tf_create_op in *; simplify_eq; reflexivity.
Defined.

Lemma get_estimator_spec_keeps_stack_witness :
  let outer := [[Example.moving_average]] in
  let w := mkWorld (set_control_stack outer empty_graph) [] O in
  control_stack
    (graph (snd (get_estimator_spec Example.builder (VTensor (TSym "x"))
                   (VTensor (TSym "y")) TRAIN VNone w))) = outer.
Proof.
  intros outer w.
  exact (get_estimator_spec_keeps_stack Example.builder (VTensor (TSym "x"))
           (VTensor (TSym "y")) VNone TRAIN w example_callbacks_keep_stack).
Defined.

(** ** get_estimator_spec: exceptions of the callbacks *)

Lemma invoke_raise {A : Type} (name : string) (args : list value) (c : Cb A)
    (w : World) (e : exn) (g : Graph) :
  c (graph w) = (Raise e, g) →
  invoke name args c w =
    (Raise e, mkWorld g (calls w ++ [Method name args]) (sess_steps w)).
Proof.
  intros H. unfold invoke, mbind, M_bind, log, lift. cbn. rewrite H. reflexivity.
Qed.

(** X5. An exception raised by a callback leaves [get_estimator_spec]
    unchanged, and no later callback is called: this holds for
    [get_inference] and [get_predictions] in every mode, for
    [get_inference_loss] in every mode but PREDICT, for
    [get_eval_metric_ops] in EVAL mode and for [get_train_op] in every
    other mode, where the block around it still pops the update ops. *)
Theorem callback_exceptions_propagate (self : ModelBuilder)
    (features labels config : value) (mode : string) (w : World) (e : exn) :
  (∀ g1,
     get_inference self features mode (graph w) = (Raise e, g1) →
     get_estimator_spec self features labels mode config w =
       (Raise e,
        mkWorld g1 (calls w ++ [Method "get_inference" [features; VStr mode]])
          (sess_steps w))) ∧
  (∀ inference g1 g2,
     get_inference self features mode (graph w) = (Ok inference, g1) →
     get_predictions self inference g1 = (Raise e, g2) →
     get_estimator_spec self features labels mode config w =
       (Raise e,
        mkWorld g2
          (calls w ++ [Method "get_inference" [features; VStr mode];
                       Method "get_predictions" [inference]])
          (sess_steps w))) ∧
  (∀ inference g1 predictions g2 g3,
     mode ≠ PREDICT →
     get_inference self features mode (graph w) = (Ok inference, g1) →
     get_predictions self inference g1 = (Ok predictions, g2) →
     get_inference_loss self inference labels g2 = (Raise e, g3) →
     get_estimator_spec self features labels mode config w =
       (Raise e,
        mkWorld g3
          (calls w ++ [Method "get_inference" [features; VStr mode];
                       Method "get_predictions" [inference];
                       Method "get_inference_loss" [inference; labels]])
          (sess_steps w))) ∧
  (∀ inference predictions loss w4 g5,
     mode = EVAL →
     reaches_loss self features labels mode w inference predictions loss w4 →
     get_eval_metric_ops self predictions labels (graph w4) = (Raise e, g5) →
     get_estimator_spec self features labels mode config w =
       (Raise e,
        mkWorld g5
          (calls w4 ++ [Method "get_eval_metric_ops" [predictions; labels]])
          (sess_steps w4))) ∧
  (∀ inference predictions loss w4 step w5 g6,
     mode ≠ PREDICT → mode ≠ EVAL →
     reaches_loss self features labels mode w inference predictions loss w4 →
     tf_train_get_or_create_global_step w4 = (Ok step, w5) →
     get_train_op self loss step (in_update_block (graph w5)) = (Raise e, g6) →
     get_estimator_spec self features labels mode config w =
       (Raise e,
        mkWorld (leave_update_block g6)
          (calls w5 ++ [Method "get_train_op" [VTensor loss; VTensor step]])
          (sess_steps w5))).
Proof.
  split; [ | split; [ | split; [ | split ] ] ].
  - intros g1 H1. unfold get_estimator_spec.
    erewrite bind_raise; [ reflexivity | apply invoke_raise; exact H1 ].
  - intros inference g1 g2 H1 H2. unfold get_estimator_spec.
    step_ok H1.
    erewrite bind_raise; [ | apply invoke_raise; exact H2 ].
    cbn [calls sess_steps]. rewrite <- app_assoc. reflexivity.
  - intros inference g1 predictions g2 g3 Hp H1 H2 H3. unfold get_estimator_spec.
    step_ok H1. step_ok H2.
    erewrite bind_ok; [ | apply tf_attr_PREDICT ]. cbn beta iota.
    rewrite (eqb_PREDICT_ne _ Hp).
    erewrite bind_raise; [ | apply invoke_raise; exact H3 ].
    cbn [calls sess_steps]. rewrite <- !app_assoc. reflexivity.
  - intros inference predictions loss w4 g5 -> H H5.
    assert (Hne : EVAL ≠ PREDICT) by discriminate.
    to_loss H Hne.
    rewrite String.eqb_refl.
    erewrite bind_raise; [ reflexivity | apply invoke_raise; exact H5 ].
  - intros inference predictions loss w4 step w5 g6 Hp He H H5 H6.
    to_loss H Hp.
    rewrite (eqb_EVAL_ne _ He).
    step_ok H5.
    erewrite bind_ok; [ | reflexivity ]. cbn beta iota.
    erewrite bind_raise; [ reflexivity | ].
    unfold with_control_dependencies.
    erewrite invoke_raise; [ reflexivity | exact H6 ].
Qed.

Lemma callback_exceptions_propagate_witness :
  get_estimator_spec (base "regression" ∅) VNone VNone TRAIN VNone Example.world =
    (Raise (NotImplementedError "Abstract method"),
     mkWorld empty_graph [Method "get_inference" [VNone; VStr TRAIN]] O).
Proof.
  exact (proj1 (callback_exceptions_propagate (base "regression" ∅) VNone VNone
                  VNone TRAIN Example.world
                  (NotImplementedError "Abstract method"))
               empty_graph eq_refl).
Defined.

(** ** get_estimator_spec: the mode is checked last *)

Lemma get_total_loss_frame (inference_loss : tensor) (w w' : World)
    (r : outcome tensor) :
  get_total_loss inference_loss w = (r, w') →
  calls w' = calls w ∧ sess_steps w' = sess_steps w.
Proof.
  destruct (regularization_losses (graph w)) as [|t ts] eqn:E.
  - rewrite (get_total_loss_empty _ _ E). intros H. injection H as _ <-.
    split; reflexivity.
  - rewrite (get_total_loss_nonempty _ _ _ _ E). intros H. injection H as _ <-.
    split; reflexivity.
Qed.

Lemma global_step_frame (w w' : World) (step : tensor) :
  tf_train_get_or_create_global_step w = (Ok step, w') →
  calls w' = calls w ∧ sess_steps w' = sess_steps w ∧
  global_step (graph w') = Some step.
Proof.
  unfold tf_train_get_or_create_global_step.
  destruct (global_step (graph w)) eqn:E; intros H; injection H as <- <-.
  - auto.
  - cbn. auto.
Qed.

(** X4. For a mode that is none of PREDICT, EVAL and TRAIN the mode is
    checked last.  When the callbacks return, [get_estimator_spec] raises
    its [ValueError] only after it has called [get_inference],
    [get_predictions], [get_inference_loss] and [get_train_op], in this
    order; [get_train_op] has received the total loss ([get_total_loss]
    of the inference loss) and the global step of the graph, created if
    it was not there, and has run inside the update-ops block. *)
Theorem unrecognized_mode_is_checked_last (self : ModelBuilder)
    (features labels config : value) (mode : string) (w w4 w5 : World)
    (inference predictions : value) (loss step : tensor)
    (train_op : op) (g6 : Graph) :
  mode ≠ PREDICT → mode ≠ EVAL → mode ≠ TRAIN →
  reaches_loss self features labels mode w inference predictions loss w4 →
  tf_train_get_or_create_global_step w4 = (Ok step, w5) →
  get_train_op self loss step (in_update_block (graph w5)) = (Ok train_op, g6) →
  get_estimator_spec self features labels mode config w =
    (Raise (ValueError ("Unrecognized mode " +:+ mode)),
     mkWorld (leave_update_block g6)
       (calls w ++ [Method "get_inference" [features; VStr mode];
                    Method "get_predictions" [inference];
                    Method "get_inference_loss" [inference; labels];
                    Method "get_train_op" [VTensor loss; VTensor step]])
       (sess_steps w)) ∧
  global_step (graph w5) = Some step.
Proof.
  intros Hp He Ht H H5 H6.
  destruct (global_step_frame _ _ _ H5) as (Hc5 & Hs5 & Hg5).
  split; [ | exact Hg5 ].
  erewrite get_estimator_spec_train_op; try eassumption.
  rewrite (eqb_TRAIN_ne _ Ht), Hc5, Hs5.
  destruct H as (g1 & g2 & inference_loss & g3 & _ & _ & _ & H4).
  destruct (get_total_loss_frame _ _ _ _ H4) as [-> ->].
  cbn [calls sess_steps]. rewrite <- app_assoc. reflexivity.
Qed.

Lemma unrecognized_mode_is_checked_last_witness :
  let x := VTensor (TSym "x") in
  let y := VTensor (TSym "y") in
  let dense := VTensor (TApply "dense" [TSym "x"]) in
  let loss :=
    TAdd (TApply "mean_squared_error" [TSym "y"; TApply "dense" [TSym "x"]])
         (TAddN [TApply "l2" [TSym "kernel"]]) in
  fst (get_estimator_spec Example.builder x y "fit" VNone Example.world) =
    Raise (ValueError "Unrecognized mode fit") ∧
  calls (snd (get_estimator_spec Example.builder x y "fit" VNone Example.world)) =
    [Method "get_inference" [x; VStr "fit"];
     Method "get_predictions" [dense];
     Method "get_inference_loss" [dense; y];
     Method "get_train_op" [VTensor loss; VTensor (TSym "global_step")]].
Proof.
  intros x y dense loss.
  edestruct (unrecognized_mode_is_checked_last Example.builder x y VNone "fit"
               Example.world) as [H _].
  - discriminate.
  - discriminate.
  - discriminate.
  - unfold reaches_loss. do 4 eexists.
    split; [ | split; [ | split ] ]; [ reflexivity | reflexivity | reflexivity | ].
    erewrite get_total_loss_nonempty; reflexivity.
  - cbn. reflexivity.
  - cbn. reflexivity.
  - rewrite H. split; reflexivity.
Defined.

(** ** Methods with a default body *)

(** X16. A subclass that keeps the base class's [get_predictions] gets,
    in PREDICT mode, a spec whose predictions are what [get_inference]
    returned; one that keeps the base class's [get_eval_metric_ops] gets,
    in EVAL mode, a spec whose metric dictionary is empty. *)
Theorem defaults_in_the_spec (self : ModelBuilder)
    (features labels config : value) (w : World) :
  (∀ inference g1,
     (∀ i g, get_predictions self i g =
             get_predictions (base (model_id self) (params self)) i g) →
     get_inference self features PREDICT (graph w) = (Ok inference, g1) →
     fst (get_estimator_spec self features labels PREDICT config w) =
       Ok (mkEstimatorSpec (VStr PREDICT) inference VNone VNone VNone)) ∧
  (∀ inference predictions loss w4,
     (∀ p l g, get_eval_metric_ops self p l g =
               get_eval_metric_ops (base (model_id self) (params self)) p l g) →
     reaches_loss self features labels EVAL w inference predictions loss w4 →
     fst (get_estimator_spec self features labels EVAL config w) =
       Ok (mkEstimatorSpec (VStr EVAL) predictions (VTensor loss) VNone
             (VDict []))).
Proof.
  split.
  - intros inference g1 Hdef Hi.
    erewrite get_estimator_spec_PREDICT; [ reflexivity | exact Hi | ].
    rewrite Hdef. reflexivity.
  - intros inference predictions loss w4 Hdef Hl.
    erewrite get_estimator_spec_EVAL; [ reflexivity | exact Hl | ].
    rewrite Hdef. reflexivity.
Qed.

Lemma defaults_in_the_spec_witness :
  fst (get_estimator_spec (Variants.minimal "plain") (VTensor (TSym "x"))
         (VTensor (TSym "y")) PREDICT VNone Example.world) =
    Ok (mkEstimatorSpec (VStr PREDICT) (VTensor (TApply "dense" [TSym "x"]))
          VNone VNone VNone).
Proof.
  refine (proj1 (defaults_in_the_spec (Variants.minimal "plain")
                   (VTensor (TSym "x")) (VTensor (TSym "y")) VNone Example.world)
                (VTensor (TApply "dense" [TSym "x"])) _ _ _).
  - reflexivity.
  - reflexivity.
Defined.

(** ** Visualization loops: frames *)

Lemma vis_inputs_unfold (env : Env) (fuel : nat) (self : ModelBuilder)
    (mode : string) :
  vis_inputs env fuel self mode =
    with_graph_as_default (
      locals ← bind_inputs self mode;
      with_MonitoredSession env
        (while_not_should_stop env fuel (example_turn env self locals))).
Proof. reflexivity. Qed.

Lemma while_respects (R : World → World → Prop) `{!PreOrder R}
    (env : Env) (fuel : nat) (body : M ()) :
  respects R body → respects R (while_not_should_stop env fuel body).
Proof.
  intros Hb. induction fuel as [|fuel IH].
  - apply respects_unchanged; [ typeclasses eauto | reflexivity ].
  - cbn [while_not_should_stop].
    apply respects_bind; [ typeclasses eauto | | intros stop ].
    + apply respects_unchanged; [ typeclasses eauto | reflexivity ].
    + destruct stop.
      * apply respects_unchanged; [ typeclasses eauto | reflexivity ].
      * apply respects_bind; [ typeclasses eauto | exact Hb | intros _; exact IH ].
Qed.

Lemma with_MonitoredSession_logs (names : list string) (env : Env) (body : M ()) :
  respects (logs_only names) body →
  respects (logs_only names) (with_MonitoredSession env body).
Proof.
  intros Hb w r w' H. unfold with_MonitoredSession in H.
  destruct (body _) as [r2 w2] eqn:E. apply Hb in E.
  assert (w' = w2) as ->.
  { destruct r2 as [a|e|]; [ | destruct (exit_suppresses env e) | ];
      injection H as _ <-; reflexivity. }
  eapply logs_only_calls; [ | | exact E ]; reflexivity.
Qed.

Lemma with_graph_as_default_logs {A : Type} (names : list string) (body : M A) :
  respects (logs_only names) body →
  respects (logs_only names) (with_graph_as_default body).
Proof.
  intros Hb w r w' H. unfold with_graph_as_default in H.
  destruct (body _) as [r2 w2] eqn:E. apply Hb in E.
  injection H as _ <-.
  eapply logs_only_calls; [ | | exact E ]; reflexivity.
Qed.

Lemma sess_run_logs (names : list string) (env : Env) (fetches : list value) :
  "Session.run" ∈ names → respects (logs_only names) (sess_run env fetches).
Proof.
  intros Hn w r w' H. unfold sess_run in H. injection H as _ <-.
  exists [SessionRun fetches]. split; [ reflexivity | ].
  repeat constructor. exact Hn.
Qed.

Lemma invoke_vis_logs (names : list string) (name : string) (args : list data)
    (r : outcome value) :
  name ∈ names → respects (logs_only names) (invoke_vis name args r).
Proof.
  intros Hn. unfold invoke_vis.
  apply respects_bind; [ typeclasses eauto | | intros _ ].
  - apply log_logs. exact Hn.
  - apply respects_bind; [ typeclasses eauto | | intros _ ];
      apply respects_unchanged; try typeclasses eauto; reflexivity.
Qed.

Lemma get_train_inputs_logs (names : list string) (self : ModelBuilder)
    (shuffle : bool) (repeat_count : option Z) (shuffle_buffer_size : Z) :
  "get_train_dataset" ∈ names →
  respects (logs_only names)
    (get_train_inputs self shuffle repeat_count shuffle_buffer_size).
Proof.
  intros Hn. unfold get_train_inputs.
  apply respects_bind; [ typeclasses eauto | | intros d ].
  { apply invoke_logs. exact Hn. }
  apply respects_bind; [ typeclasses eauto | | intros b ].
  { apply respects_unchanged; [ typeclasses eauto | apply batch_size_unchanged ]. }
  apply respects_bind; [ typeclasses eauto | | intros [f l] ].
  { apply respects_unchanged; [ typeclasses eauto | apply unpack2_unchanged ]. }
  apply respects_unchanged; [ typeclasses eauto | reflexivity ].
Qed.

Lemma get_predict_inputs_logs (names : list string) (self : ModelBuilder) :
  "get_predict_dataset" ∈ names →
  respects (logs_only names) (get_predict_inputs self).
Proof.
  intros Hn. unfold get_predict_inputs.
  apply respects_bind; [ typeclasses eauto | | intros d ].
  { apply invoke_logs. exact Hn. }
  apply respects_bind; [ typeclasses eauto | | intros b ].
  { apply respects_unchanged; [ typeclasses eauto | apply batch_size_unchanged ]. }
  apply respects_unchanged; [ typeclasses eauto | reflexivity ].
Qed.

Lemma bind_inputs_logs (names : list string) (self : ModelBuilder) (mode : string) :
  "get_predict_dataset" ∈ names → "get_train_dataset" ∈ names →
  respects (logs_only names) (bind_inputs self mode).
Proof.
  intros Hp Ht. unfold bind_inputs.
  apply respects_bind; [ typeclasses eauto | | intros k ].
  { apply respects_unchanged; [ typeclasses eauto | apply tf_attr_unchanged ]. }
  destruct (String.eqb mode k).
  - apply respects_bind; [ typeclasses eauto | | intros v ].
    { apply get_predict_inputs_logs. exact Hp. }
    apply respects_bind; [ typeclasses eauto | | intros p ].
    { apply respects_unchanged; [ typeclasses eauto | apply unpack2_unchanged ]. }
    apply respects_unchanged; [ typeclasses eauto | reflexivity ].
  - apply respects_bind; [ typeclasses eauto | | intros k' ].
    { apply respects_unchanged; [ typeclasses eauto | apply tf_attr_unchanged ]. }
    destruct (String.eqb mode k').
    + apply respects_bind; [ typeclasses eauto | | intros v ].
      { apply get_train_inputs_logs. exact Ht. }
      apply respects_bind; [ typeclasses eauto | | intros p ].
      { apply respects_unchanged; [ typeclasses eauto | apply unpack2_unchanged ]. }
      apply respects_unchanged; [ typeclasses eauto | reflexivity ].
    + apply respects_unchanged; [ typeclasses eauto | reflexivity ].
Qed.

Ltac listed := unfold vis_inputs_calls, vis_predictions_calls;
  apply list_elem_of_In; cbn; tauto.

(** X8. Whatever its mode, fuel and outcome, [vis_inputs] logs nothing
    but calls of [get_predict_dataset], [get_train_dataset], the
    session's [run] and [vis_example_data]: it never calls
    [get_eval_dataset], the estimator callbacks or the saver. *)
Theorem vis_inputs_calls_only (env : Env) (fuel : nat) (self : ModelBuilder)
    (mode : string) (w : World) :
  ∃ l, calls (snd (vis_inputs env fuel self mode w)) = calls w ++ l ∧
       Forall (λ c, call_name c ∈ vis_inputs_calls) l.
Proof.
  enough (H : respects (logs_only vis_inputs_calls) (vis_inputs env fuel self mode)).
  { eapply H. apply surjective_pairing. }
  rewrite vis_inputs_unfold.
  apply with_graph_as_default_logs.
  apply respects_bind; [ typeclasses eauto | | intros locals ].
  { apply bind_inputs_logs; listed. }
  apply with_MonitoredSession_logs, while_respects; [ typeclasses eauto | ].
  unfold example_turn.
  apply respects_bind; [ typeclasses eauto | | intros features ].
  { apply respects_unchanged; [ typeclasses eauto | apply read_local_unchanged ]. }
  apply respects_bind; [ typeclasses eauto | | intros labels ].
  { apply respects_unchanged; [ typeclasses eauto | apply read_local_unchanged ]. }
  apply respects_bind; [ typeclasses eauto | | intros data ].
  { apply sess_run_logs. listed. }
  destruct data as [|fd [|ld [|x data]]];
    try (apply respects_unchanged; [ typeclasses eauto | reflexivity ]).
  apply invoke_vis_logs. listed.
Qed.

(** X9. Whatever its mode, fuel and outcome, [vis_predictions] logs
    nothing but calls of the predict and train dataset callbacks,
    [get_inference], [get_predictions], the saver's [restore], the
    session's [run] and [vis_prediction_data]: it builds the spec in
    PREDICT mode, so [get_inference_loss], [get_eval_metric_ops] and
    [get_train_op] are never called, even when [mode] is TRAIN. *)
Theorem vis_predictions_calls_only (env : Env) (fuel : nat) (self : ModelBuilder)
    (mode : string) (w : World) :
  ∃ l, calls (snd (vis_predictions env fuel self mode w)) = calls w ++ l ∧
       Forall (λ c, call_name c ∈ vis_predictions_calls) l.
Proof.
  enough (H : respects (logs_only vis_predictions_calls)
                (vis_predictions env fuel self mode)).
  { eapply H. apply surjective_pairing. }
  unfold vis_predictions.
  apply with_graph_as_default_logs.
  apply respects_bind; [ typeclasses eauto | | intros locals ].
  { apply bind_inputs_logs; listed. }
  apply respects_bind; [ typeclasses eauto | | intros features ].
  { apply respects_unchanged; [ typeclasses eauto | apply read_local_unchanged ]. }
  apply respects_bind; [ typeclasses eauto | | intros labels ].
  { apply respects_unchanged; [ typeclasses eauto | apply read_local_unchanged ]. }
  apply (respects_tf_attr _ _ PREDICT); [ exact tf_attr_PREDICT | ].
  apply respects_bind; [ typeclasses eauto | | intros spec ].
  { eapply respects_logs_mono; [ | apply get_estimator_spec_logs ].
    intros name Hn. apply list_elem_of_In in Hn. cbn in Hn.
    unfold vis_predictions_calls. apply list_elem_of_In. cbn. tauto. }
  cbn zeta.
  apply respects_bind; [ typeclasses eauto | | intros _ ].
  { apply respects_unchanged; [ typeclasses eauto | reflexivity ]. }
  apply with_MonitoredSession_logs.
  apply respects_bind; [ typeclasses eauto | | intros _ ].
  { unfold saver_restore.
    apply respects_bind; [ typeclasses eauto | | intros _ ].
    - apply log_logs. listed.
    - apply respects_unchanged; [ typeclasses eauto | reflexivity ]. }
  apply while_respects; [ typeclasses eauto | ].
  apply respects_bind; [ typeclasses eauto | | intros data ].
  { apply sess_run_logs. listed. }
  destruct data as [|pd [|fd [|ld [|x data]]]];
    try (apply respects_unchanged; [ typeclasses eauto | reflexivity ]).
  apply invoke_vis_logs. listed.
Qed.

(** ** Visualization loops: how they end *)

(** [n] good turns at the head of the loop. *)
Lemma while_not_should_stop_unroll (env : Env) (body : M ()) (g : Graph)
    (ev : nat → list Call) (n : nat) :
  ∀ (start fuel : nat) (cs : list Call),
    (∀ k, (k < n)%nat → should_stop env (start + k)%nat = false) →
    (∀ k cs', (k < n)%nat →
       body (mkWorld g cs' (start + k)%nat) =
         (Ok (), mkWorld g (cs' ++ ev (start + k)%nat) (S (start + k)))) →
    while_not_should_stop env (n + fuel) body (mkWorld g cs start) =
      while_not_should_stop env fuel body
        (mkWorld g (cs ++ concat (map ev (seq start n))) (start + n)%nat).
Proof.
  induction n as [|n IH]; intros start fuel cs Hgo Hbody.
  - cbn. rewrite app_nil_r, Nat.add_0_r. reflexivity.
  - cbn [Nat.add while_not_should_stop].
    unfold mbind at 1, M_bind at 1, sess_should_stop. cbn [sess_steps].
    pose proof (Hgo O ltac:(lia)) as H0. rewrite Nat.add_0_r in H0. rewrite H0.
    pose proof (Hbody O cs ltac:(lia)) as Hb. rewrite Nat.add_0_r in Hb.
    erewrite bind_ok; [ | exact Hb ].
    rewrite (IH (S start) fuel (cs ++ ev start)).
    + cbn [seq map concat]. rewrite <- app_assoc.
      replace (S start + n)%nat with (start + S n)%nat by lia. reflexivity.
    + intros k Hk. replace (S start + k)%nat with (start + S k)%nat by lia.
      apply Hgo. lia.
    + intros k cs' Hk. replace (S start + k)%nat with (start + S k)%nat by lia.
      apply Hbody. lia.
Qed.

(** The loop stops at the first turn that raises. *)
Lemma while_not_should_stop_raises (env : Env) (body : M ()) (fuel : nat)
    (w w' : World) (e : exn) :
  should_stop env (sess_steps w) = false →
  body w = (Raise e, w') →
  while_not_should_stop env (S fuel) body w = (Raise e, w').
Proof.
  intros Hs Hb. cbn [while_not_should_stop].
  unfold mbind at 1, M_bind at 1, sess_should_stop. rewrite Hs.
  erewrite bind_raise; [ reflexivity | exact Hb ].
Qed.

Lemma example_turn_ok (env : Env) (self : ModelBuilder) (features labels : value)
    (g : Graph) (cs : list Call) (k : nat) (fd ld : data) (r : value) :
  run_fetch env k features = Ok fd → run_fetch env k labels = Ok ld →
  vis_example_data self fd ld = Ok r →
  example_turn env self (Some (features, labels)) (mkWorld g cs k) =
    (Ok (),
     mkWorld g (cs ++ turn [features; labels] "vis_example_data"
                        (λ _, [fd; ld]) k) (S k)).
Proof.
  intros Hf Hl Hr. unfold example_turn.
  cbn [fmap option_fmap option_map fst snd read_local].
  erewrite bind_ok; [ | reflexivity ]. cbn beta.
  erewrite bind_ok; [ | reflexivity ]. cbn beta.
  erewrite bind_ok; cycle 1.
  { apply sess_run_ok. cbn. rewrite Hf, Hl. reflexivity. }
  cbn beta iota. rewrite Hr, invoke_vis_ok. cbn [graph calls sess_steps].
  rewrite <- app_assoc. reflexivity.
Qed.

Lemma example_turn_callback_raises (env : Env) (self : ModelBuilder)
    (features labels : value) (g : Graph) (cs : list Call) (k : nat)
    (fd ld : data) (e : exn) :
  run_fetch env k features = Ok fd → run_fetch env k labels = Ok ld →
  vis_example_data self fd ld = Raise e →
  example_turn env self (Some (features, labels)) (mkWorld g cs k) =
    (Raise e,
     mkWorld g (cs ++ turn [features; labels] "vis_example_data"
                        (λ _, [fd; ld]) k) (S k)).
Proof.
  intros Hf Hl Hr. unfold example_turn.
  cbn [fmap option_fmap option_map fst snd read_local].
  erewrite bind_ok; [ | reflexivity ]. cbn beta.
  erewrite bind_ok; [ | reflexivity ]. cbn beta.
  erewrite bind_ok; cycle 1.
  { apply sess_run_ok. cbn. rewrite Hf, Hl. reflexivity. }
  cbn beta iota. rewrite Hr. unfold invoke_vis, turn.
  erewrite bind_ok; [ | reflexivity ]. cbn beta.
  erewrite bind_raise; [ | reflexivity ].
  cbn [graph calls sess_steps]. rewrite <- app_assoc. reflexivity.
Qed.

Lemma example_turn_run_raises (env : Env) (self : ModelBuilder)
    (features labels : value) (g : Graph) (cs : list Call) (k : nat) (e : exn) :
  run_fetches (run_fetch env k) [features; labels] = Raise e →
  example_turn env self (Some (features, labels)) (mkWorld g cs k) =
    (Raise e, mkWorld g (cs ++ [SessionRun [features; labels]]) (S k)).
Proof.
  intros Hr. unfold example_turn.
  cbn [fmap option_fmap option_map fst snd read_local].
  erewrite bind_ok; [ | reflexivity ]. cbn beta.
  erewrite bind_ok; [ | reflexivity ]. cbn beta.
  erewrite bind_raise; [ reflexivity | ].
  unfold sess_run. cbn [graph calls sess_steps]. rewrite Hr. reflexivity.
Qed.

(** The world of [vis_inputs] after [n] good turns, seen from inside the
    session, and how the two [with] blocks pass an exception on. *)
Lemma vis_inputs_after (env : Env) (self : ModelBuilder) (mode : string)
    (w w1 : World) (features labels : value) (fd ld : nat → data)
    (n fuel : nat) (r : outcome ()) (cs : list Call) (k : nat) :
  bind_inputs self mode (set_graph empty_graph w) =
    (Ok (Some (features, labels)), w1) →
  (∀ k, (k < n)%nat → should_stop env k = false) →
  (∀ k, (k < n)%nat →
     run_fetch env k features = Ok (fd k) ∧ run_fetch env k labels = Ok (ld k) ∧
     ∃ v, vis_example_data self (fd k) (ld k) = Ok v) →
  while_not_should_stop env fuel
    (example_turn env self (Some (features, labels)))
    (mkWorld (graph w1)
       (calls w1 ++ concat (map (turn [features; labels] "vis_example_data"
                                  (λ k, [fd k; ld k])) (seq 0 n))) n) =
    (r, mkWorld (graph w1) cs k) →
  vis_inputs env (n + fuel) self mode w =
    (match r with
     | Raise e => on_exit env e
     | _ => r
     end, mkWorld (graph w) cs k).
Proof.
  intros Hbind Hgo Hturn Hrest.
  rewrite vis_inputs_unfold. unfold with_graph_as_default.
  erewrite bind_ok; [ | exact Hbind ].
  unfold with_MonitoredSession.
  erewrite (while_not_should_stop_unroll env _ (graph w1)
              (turn [features; labels] "vis_example_data" (λ k, [fd k; ld k]))
              n O fuel (calls w1)).
  - cbn [Nat.add]. rewrite Hrest. unfold on_exit.
    destruct r as [[]|e|]; [ reflexivity | | reflexivity ].
    destruct (exit_suppresses env e); reflexivity.
  - intros j Hj. apply Hgo. exact Hj.
  - intros j cs' Hj. cbn [Nat.add].
    destruct (Hturn j Hj) as (Hf & Hl & v & Hv).
    apply (example_turn_ok env self features labels (graph w1) cs' j
             (fd j) (ld j) v Hf Hl Hv).
Qed.

Lemma turns_snoc (fetches : list value) (callback : string)
    (f : nat → list data) (n : nat) :
  concat (map (turn fetches callback f) (seq 0 (S n))) =
  concat (map (turn fetches callback f) (seq 0 n)) ++ turn fetches callback f n.
Proof.
  rewrite seq_S, map_app, concat_app. cbn [Nat.add map concat].
  rewrite app_nil_r. reflexivity.
Qed.

(** X11. If [vis_example_data] raises on the batch of turn [n], after [n]
    good turns, the loop of [vis_inputs] ends there: the exception leaves
    the method unless the session's [with] block swallows it, the failing
    call is the last one logged and no further batch is run.  With the
    base class's [vis_example_data] this happens on the first batch. *)
Theorem vis_inputs_callback_raises (env : Env) (self : ModelBuilder)
    (mode : string) (w w1 : World) (features labels : value)
    (fd ld : nat → data) (n fuel : nat) (e : exn) :
  bind_inputs self mode (set_graph empty_graph w) =
    (Ok (Some (features, labels)), w1) →
  (∀ k, (k ≤ n)%nat → should_stop env k = false) →
  (∀ k, (k ≤ n)%nat →
     run_fetch env k features = Ok (fd k) ∧ run_fetch env k labels = Ok (ld k)) →
  (∀ k, (k < n)%nat → ∃ v, vis_example_data self (fd k) (ld k) = Ok v) →
  vis_example_data self (fd n) (ld n) = Raise e →
  (n < fuel)%nat →
  vis_inputs env fuel self mode w =
    (on_exit env e,
     mkWorld (graph w)
       (calls w1 ++
        concat (map (turn [features; labels] "vis_example_data"
                       (λ k, [fd k; ld k])) (seq 0 (S n))))
       (S n)).
Proof.
  intros Hbind Hgo Hrun Hvis He Hfuel.
  replace fuel with (n + S (fuel - S n))%nat by lia.
  rewrite turns_snoc, app_assoc.
  apply (vis_inputs_after env self mode w w1 features labels fd ld n
           (S (fuel - S n)) (Raise e)); try assumption.
  - intros k Hk. apply Hgo. lia.
  - intros k Hk. destruct (Hrun k ltac:(lia)) as [Hf Hl].
    split; [ exact Hf | split; [ exact Hl | apply Hvis; exact Hk ] ].
  - apply while_not_should_stop_raises.
    + cbn [sess_steps]. apply Hgo. lia.
    + destruct (Hrun n ltac:(lia)) as [Hf Hl].
      apply (example_turn_callback_raises env self features labels (graph w1)
               _ n (fd n) (ld n) e Hf Hl He).
Qed.

Lemma vis_inputs_callback_raises_witness :
  ∃ w', vis_inputs (Example.env 2) 5 (Variants.minimal "plain") TRAIN
          Example.world = (Raise (NotImplementedError EmptyString), w') ∧
        sess_steps w' = 1%nat.
Proof.
  eexists. split.
  - erewrite (vis_inputs_callback_raises (Example.env 2) (Variants.minimal "plain")
                TRAIN Example.world _ _ _
                (λ k, DataArray k (TNext _ [0%nat]))
                (λ k, DataArray k (TNext _ [1%nat])) 0 5
                (NotImplementedError EmptyString)); cycle 1.
    + reflexivity.
    + intros k Hk. assert (k = O) as -> by lia. reflexivity.
    + intros k Hk. split; reflexivity.
    + intros k Hk. lia.
    + reflexivity.
    + lia.
    + reflexivity.
  - reflexivity.
Defined.

(** X12. If a session run raises on turn [n], after [n] good turns, the
    loop of [vis_inputs] ends there and the callback has seen exactly the
    [n] batches before.  When the session's [with] block swallows the
    exception (as it does for the end of the dataset), [vis_inputs]
    returns normally; otherwise the exception leaves the method. *)
Theorem vis_inputs_run_raises (env : Env) (self : ModelBuilder)
    (mode : string) (w w1 : World) (features labels : value)
    (fd ld : nat → data) (n fuel : nat) (e : exn) :
  bind_inputs self mode (set_graph empty_graph w) =
    (Ok (Some (features, labels)), w1) →
  (∀ k, (k ≤ n)%nat → should_stop env k = false) →
  (∀ k, (k < n)%nat →
     run_fetch env k features = Ok (fd k) ∧ run_fetch env k labels = Ok (ld k) ∧
     ∃ v, vis_example_data self (fd k) (ld k) = Ok v) →
  run_fetches (run_fetch env n) [features; labels] = Raise e →
  (n < fuel)%nat →
  vis_inputs env fuel self mode w =
    (on_exit env e,
     mkWorld (graph w)
       (calls w1 ++
        concat (map (turn [features; labels] "vis_example_data"
                       (λ k, [fd k; ld k])) (seq 0 n)) ++
        [SessionRun [features; labels]])
       (S n)).
Proof.
  intros Hbind Hgo Hturn He Hfuel.
  replace fuel with (n + S (fuel - S n))%nat by lia.
  rewrite app_assoc.
  apply (vis_inputs_after env self mode w w1 features labels fd ld n
           (S (fuel - S n)) (Raise e)); try assumption.
  - intros k Hk. apply Hgo. lia.
  - apply while_not_should_stop_raises.
    + cbn [sess_steps]. apply Hgo. lia.
    + apply example_turn_run_raises. exact He.
Qed.

Lemma vis_inputs_run_raises_witness :
  ∃ w', vis_inputs (Variants.exhausting 2) 9 Example.builder TRAIN
          Example.world = (Ok (), w') ∧
        sess_steps w' = 3%nat.
Proof.
  eexists. split.
  - erewrite (vis_inputs_run_raises (Variants.exhausting 2) Example.builder
                TRAIN Example.world _ _ _
                (λ k, DataArray k (TNext _ [0%nat]))
                (λ k, DataArray k (TNext _ [1%nat])) 2 9 OutOfRangeError);
      cycle 1.
    + reflexivity.
    + intros k Hk. reflexivity.
    + intros k Hk. destruct k as [|[|k]]; [ | | lia ];
        (split; [ reflexivity | split; [ reflexivity | eexists; reflexivity ] ]).
    + reflexivity.
    + lia.
    + reflexivity.
  - reflexivity.
Defined.

(** X15. If the session never asks to stop and every run and every
    callback succeeds, [vis_inputs] does not return: whatever the fuel,
    the loop uses it up.  (With the default training inputs, which repeat
    without bound, only the session can end the loop.) *)
Theorem vis_inputs_runs_forever (env : Env) (self : ModelBuilder)
    (mode : string) (w w1 : World) (features labels : value)
    (fd ld : nat → data) :
  bind_inputs self mode (set_graph empty_graph w) =
    (Ok (Some (features, labels)), w1) →
  (∀ k, should_stop env k = false) →
  (∀ k, run_fetch env k features = Ok (fd k) ∧
        run_fetch env k labels = Ok (ld k) ∧
        ∃ v, vis_example_data self (fd k) (ld k) = Ok v) →
  ∀ fuel, fst (vis_inputs env fuel self mode w) = OutOfFuel.
Proof.
  intros Hbind Hgo Hturn fuel.
  replace fuel with (fuel + 0)%nat by lia.
  erewrite (vis_inputs_after env self mode w w1 features labels fd ld fuel
              O OutOfFuel); try eassumption.
  - reflexivity.
  - intros k _. apply Hgo.
  - intros k _. apply Hturn.
  - reflexivity.
Qed.

Lemma vis_inputs_runs_forever_witness :
  fst (vis_inputs Variants.endless 40 Example.builder TRAIN Example.world) =
    OutOfFuel.
Proof.
  eapply (vis_inputs_runs_forever Variants.endless Example.builder TRAIN
            Example.world _ _ _
            (λ k, DataArray k (TNext _ [0%nat]))
            (λ k, DataArray k (TNext _ [1%nat]))).
  - reflexivity.
  - intros k. reflexivity.
  - intros k. split; [ reflexivity | split; [ reflexivity | eexists; reflexivity ] ].
Defined.

Lemma bind_inputs_unbound (self : ModelBuilder) (mode : string) (w : World) :
  mode ≠ PREDICT → mode ≠ TRAIN → bind_inputs self mode w = (Ok None, w).
Proof.
  intros Hp Ht. unfold bind_inputs.
  erewrite bind_ok; [ | apply tf_attr_PREDICT ]. cbn beta.
  rewrite (eqb_PREDICT_ne _ Hp).
  erewrite bind_ok; [ | apply tf_attr_TRAIN ]. cbn beta.
  rewrite (eqb_TRAIN_ne _ Ht). reflexivity.
Qed.

(** X14. With a mode that is neither PREDICT nor TRAIN (EVAL included)
    the vis functions bind no inputs.  [vis_predictions] then raises
    [UnboundLocalError] at once: no callback is called, nothing is
    restored, no session is run.  [vis_inputs] opens the session and
    raises the same error in the first turn of its loop, unless the
    session asks to stop before the first turn, in which case it returns
    having done nothing. *)
Theorem vis_functions_without_inputs (env : Env) (fuel : nat)
    (self : ModelBuilder) (mode : string) (w : World) :
  mode ≠ PREDICT → mode ≠ TRAIN →
  vis_predictions env fuel self mode w =
    (Raise (UnboundLocalError "features"),
     mkWorld (graph w) (calls w) (sess_steps w)) ∧
  vis_inputs env (S fuel) self mode w =
    (if should_stop env 0 then Ok ()
     else on_exit env (UnboundLocalError "features"),
     mkWorld (graph w) (calls w) O).
Proof.
  intros Hp Ht. split.
  - unfold vis_predictions, with_graph_as_default.
    erewrite bind_ok; [ | apply bind_inputs_unbound; assumption ].
    erewrite bind_raise; cycle 1.
    { reflexivity. }
    reflexivity.
  - rewrite vis_inputs_unfold. unfold with_graph_as_default.
    erewrite bind_ok; [ | apply bind_inputs_unbound; assumption ].
    unfold with_MonitoredSession. cbn [while_not_should_stop].
    unfold mbind at 1, M_bind at 1, sess_should_stop. cbn [sess_steps].
    destruct (should_stop env 0).
    + reflexivity.
    + unfold example_turn. cbn [fmap option_fmap option_map read_local].
      erewrite bind_raise; cycle 1.
      { erewrite bind_raise; cycle 1; reflexivity. }
      unfold on_exit.
      destruct (exit_suppresses env (UnboundLocalError "features")); reflexivity.
Qed.

Lemma vis_functions_without_inputs_witness :
  fst (vis_predictions (Example.env 2) 4 Example.builder EVAL Example.world) =
    Raise (UnboundLocalError "features") ∧
  fst (vis_inputs (Example.env 2) 5 Example.builder EVAL Example.world) =
    Raise (UnboundLocalError "features").
Proof.
  destruct (vis_functions_without_inputs (Example.env 2) 4 Example.builder EVAL
              Example.world ltac:(discriminate) ltac:(discriminate)) as [Hp Hi].
  split.
  - rewrite Hp. reflexivity.
  - rewrite Hi. reflexivity.
Defined.

(** [vis_predictions] up to its session: inputs bound, spec built in
    PREDICT mode, saver built. *)
Lemma vis_predictions_session (env : Env) (fuel : nat) (self : ModelBuilder)
    (mode : string) (w w1 w2 : World) (features labels : value)
    (spec : EstimatorSpec) :
  bind_inputs self mode (set_graph empty_graph w) =
    (Ok (Some (features, labels)), w1) →
  get_estimator_spec self features labels PREDICT VNone w1 = (Ok spec, w2) →
  saver_init env (graph w2) = Ok () →
  vis_predictions env fuel self mode w =
    (fst (with_MonitoredSession env
            (saver_restore env (latest_checkpoint env (model_dir env self));;
             while_not_should_stop env fuel
               (prediction_turn env self (spec_predictions spec) features labels))
            w2),
     set_graph (graph w)
       (snd (with_MonitoredSession env
               (saver_restore env (latest_checkpoint env (model_dir env self));;
                while_not_should_stop env fuel
                  (prediction_turn env self (spec_predictions spec) features labels))
               w2))).
Proof.
  intros Hbind Hspec Hsaver.
  unfold vis_predictions, with_graph_as_default.
  erewrite bind_ok; [ | exact Hbind ].
  cbn [fmap option_fmap option_map fst snd read_local].
  erewrite bind_ok; [ | reflexivity ]. cbn beta.
  erewrite bind_ok; [ | reflexivity ]. cbn beta.
  erewrite bind_ok; [ | apply tf_attr_PREDICT ]. cbn beta.
  erewrite bind_ok; [ | exact Hspec ]. cbn beta zeta.
  erewrite bind_ok; cycle 1.
  { unfold tf_train_Saver. rewrite Hsaver. reflexivity. }
  cbn beta. fold (prediction_turn env self (spec_predictions spec) features labels).
  destruct (with_MonitoredSession _ _ _). reflexivity.
Qed.

Lemma saver_restore_ok (env : Env) (path : value) (w : World) :
  restore_result env path = Ok () →
  saver_restore env path w =
    (Ok (), mkWorld (graph w) (calls w ++ [SaverRestore path]) (sess_steps w)).
Proof.
  intros H. unfold saver_restore. erewrite bind_ok; [ | reflexivity ].
  unfold answer. rewrite H. reflexivity.
Qed.

(** X13. If building the saver raises (a graph without variables) or
    restoring the checkpoint raises (for instance because the model
    directory holds none), [vis_predictions] ends before its loop,
    whatever the fuel: the inputs and the predictions have been built, but
    no batch is run and [vis_prediction_data] is never called.  The
    saver's exception leaves the method as it is; the restore's passes
    through the exit of the session's block. *)
Theorem vis_predictions_restore_fails (env : Env) (fuel : nat)
    (self : ModelBuilder) (mode : string) (w w1 w2 : World)
    (features labels : value) (spec : EstimatorSpec) (e : exn) :
  bind_inputs self mode (set_graph empty_graph w) =
    (Ok (Some (features, labels)), w1) →
  get_estimator_spec self features labels PREDICT VNone w1 = (Ok spec, w2) →
  (saver_init env (graph w2) = Raise e →
   vis_predictions env fuel self mode w =
     (Raise e, mkWorld (graph w) (calls w2) (sess_steps w2))) ∧
  (saver_init env (graph w2) = Ok () →
   restore_result env (latest_checkpoint env (model_dir env self)) = Raise e →
   vis_predictions env fuel self mode w =
     (on_exit env e,
      mkWorld (graph w)
        (calls w2 ++ [SaverRestore (latest_checkpoint env (model_dir env self))])
        O)).
Proof.
  intros Hbind Hspec. split.
  - intros Hsaver.
    unfold vis_predictions, with_graph_as_default.
    erewrite bind_ok; [ | exact Hbind ].
    cbn [fmap option_fmap option_map fst snd read_local].
    erewrite bind_ok; [ | reflexivity ]. cbn beta.
    erewrite bind_ok; [ | reflexivity ]. cbn beta.
    erewrite bind_ok; [ | apply tf_attr_PREDICT ]. cbn beta.
    erewrite bind_ok; [ | exact Hspec ]. cbn beta zeta.
    erewrite bind_raise; cycle 1.
    { unfold tf_train_Saver. rewrite Hsaver. reflexivity. }
    reflexivity.
  - intros Hsaver Hrestore.
    rewrite (vis_predictions_session env fuel self mode w w1 w2 features labels
               spec Hbind Hspec Hsaver).
    unfold with_MonitoredSession.
    erewrite bind_raise; cycle 1.
    { unfold saver_restore. erewrite bind_ok; [ | reflexivity ].
      unfold answer. rewrite Hrestore. reflexivity. }
    unfold on_exit. cbn [graph calls sess_steps].
    destruct (exit_suppresses env e); reflexivity.
Qed.

Lemma vis_predictions_restore_fails_witness :
  (∃ msg w',
     vis_predictions (Variants.without_checkpoint 2) 5 Example.builder TRAIN
       Example.world = (Raise (ValueError msg), w') ∧
     Forall (λ c, call_name c ≠ "vis_prediction_data") (calls w')) ∧
  (∃ w',
     vis_predictions (Variants.without_variables 2) 5 Example.builder TRAIN
       Example.world = (Raise (ValueError "No variables to save"), w') ∧
     Forall (λ c, call_name c ≠ "Saver.restore") (calls w')).
Proof.
  split.
  - eexists. eexists. split.
    + edestruct (vis_predictions_restore_fails (Variants.without_checkpoint 2)
                   5 Example.builder TRAIN Example.world) as [_ Hr];
        [ reflexivity | reflexivity | ].
      rewrite Hr; cycle 1.
      * reflexivity.
      * reflexivity.
      * reflexivity.
    + cbn. repeat constructor; discriminate.
  - eexists. split.
    + edestruct (vis_predictions_restore_fails (Variants.without_variables 2)
                   5 Example.builder TRAIN Example.world) as [Hs _];
        [ reflexivity | reflexivity | ].
      rewrite Hs; cycle 1.
      * reflexivity.
      * reflexivity.
    + cbn. repeat constructor; discriminate.
Defined.

(** ** The model directory *)

Lemma append_nonempty (a b : string) :
  b ≠ EmptyString → a +:+ b ≠ EmptyString.
Proof. intros Hb. destruct a; [ exact Hb | discriminate ]. Qed.

Lemma ends_with_sep_app (a b : string) :
  b ≠ EmptyString → ends_with_sep (a +:+ b) = ends_with_sep b.
Proof.
  intros Hb. induction a as [|c a IH].
  - reflexivity.
  - change (String c a +:+ b) with (String c (a +:+ b)).
    destruct (a +:+ b) eqn:E.
    + exfalso. revert E. apply append_nonempty. exact Hb.
    + exact IH.
Qed.

Lemma estimator_dir_shape (env : Env) :
  String.eqb (estimator_dir env) EmptyString || ends_with_sep (estimator_dir env)
    = false.
Proof.
  unfold estimator_dir, os_path_join. cbn [String.prefix].
  assert (H : ∀ s, s ≠ EmptyString → ends_with_sep s = false →
                   String.eqb (module_dir env +:+ s) EmptyString
                     || ends_with_sep (module_dir env +:+ s) = false).
  { intros s Hs He. apply orb_false_iff. split.
    - apply String.eqb_neq, append_nonempty, Hs.
    - rewrite ends_with_sep_app; assumption. }
  destruct (String.eqb (module_dir env) EmptyString
            || ends_with_sep (module_dir env)).
  - apply H; [ discriminate | reflexivity ].
  - apply (H ("/" +:+ "estimator")); [ discriminate | reflexivity ].
Qed.

(** X17. [model_dir] is [estimator_dir], a separator and [model_id] when
    [model_id] is a relative path, whatever the directory of the module.
    A [model_id] that starts with a separator replaces the whole path:
    such a model does not live under [estimator_dir]. *)
Theorem model_dir_of_model_id (env : Env) (self : ModelBuilder) :
  (String.prefix "/" (model_id self) = false →
   model_dir env self = estimator_dir env +:+ "/" +:+ model_id self) ∧
  (String.prefix "/" (model_id self) = true →
   model_dir env self = model_id self).
Proof.
  unfold model_dir. split; intros H.
  - unfold os_path_join at 1. rewrite H, estimator_dir_shape. reflexivity.
  - unfold os_path_join at 1. rewrite H. reflexivity.
Qed.

Lemma model_dir_of_model_id_witness :
  model_dir (Example.env 0) Example.builder = "/src/model/estimator/regression" ∧
  model_dir (Example.env 0) (Variants.minimal "/tmp/run") = "/tmp/run".
Proof.
  split.
  - rewrite (proj1 (model_dir_of_model_id (Example.env 0) Example.builder) eq_refl).
    reflexivity.
  - exact (proj2 (model_dir_of_model_id (Example.env 0) (Variants.minimal "/tmp/run"))
             eq_refl).
Defined.

(** ** The visualization loops, mode by mode *)

Lemma bind_inputs_TRAIN (self : ModelBuilder) (w : World) (b : Z)
    (d : dataset) (g : Graph) (s1 s2 : shape) :
  params self !! "batch_size" = Some b →
  get_train_dataset self (graph w) = (Ok d, g) →
  element_shape d = STuple [s1; s2] →
  bind_inputs self TRAIN w =
    (Ok (Some (next_at (DBatch b (DRepeat None (DShuffle 10000 d))) [0%nat] s1,
               next_at (DBatch b (DRepeat None (DShuffle 10000 d))) [1%nat] s2)),
     mkWorld g (calls w ++ [Method "get_train_dataset" []]) (sess_steps w)).
Proof.
  intros Hb Hd Hs. unfold bind_inputs.
  erewrite bind_ok; [ | apply tf_attr_PREDICT ]. cbn beta.
  replace (String.eqb TRAIN PREDICT) with false by reflexivity.
  erewrite bind_ok; [ | apply tf_attr_TRAIN ]. cbn beta.
  rewrite String.eqb_refl.
  erewrite bind_ok; cycle 1.
  { unfold get_train_inputs_default.
    rewrite (get_train_inputs_run self w b d g _ _ _ Hb Hd).
    apply (iterate_pairs_pair _ s1 s2). exact Hs. }
  reflexivity.
Qed.

Lemma bind_inputs_PREDICT (self : ModelBuilder) (w : World) (b : Z)
    (d : dataset) (g : Graph) :
  params self !! "batch_size" = Some b →
  get_predict_dataset self (graph w) = (Ok d, g) →
  bind_inputs self PREDICT w =
    (Ok (Some (make_one_shot_iterator_get_next (DBatch b d), VNone)),
     mkWorld g (calls w ++ [Method "get_predict_dataset" []]) (sess_steps w)).
Proof.
  intros Hb Hd. unfold bind_inputs.
  erewrite bind_ok; [ | apply tf_attr_PREDICT ]. cbn beta.
  rewrite String.eqb_refl.
  erewrite bind_ok; [ | apply get_predict_inputs_run; eassumption ].
  reflexivity.
Qed.

Lemma while_not_should_stop_stops (env : Env) (body : M ()) (fuel : nat) (w : World) :
  should_stop env (sess_steps w) = true →
  while_not_should_stop env (S fuel) body w = (Ok (), w).
Proof.
  intros Hs. cbn [while_not_should_stop].
  unfold mbind, M_bind, sess_should_stop. rewrite Hs. reflexivity.
Qed.

Lemma prediction_turn_ok (env : Env) (self : ModelBuilder)
    (predictions features labels : value) (g : Graph) (cs : list Call) (k : nat)
    (pd fd ld : data) (r : value) :
  run_fetch env k predictions = Ok pd →
  run_fetch env k features = Ok fd → run_fetch env k labels = Ok ld →
  vis_prediction_data self pd fd ld = Ok r →
  prediction_turn env self predictions features labels (mkWorld g cs k) =
    (Ok (),
     mkWorld g (cs ++ turn [predictions; features; labels] "vis_prediction_data"
                        (λ _, [pd; fd; ld]) k) (S k)).
Proof.
  intros Hp Hf Hl Hr. unfold prediction_turn.
  erewrite bind_ok; cycle 1.
  { apply sess_run_ok. cbn. rewrite Hp, Hf, Hl. reflexivity. }
  cbn beta iota. rewrite Hr, invoke_vis_ok. cbn [graph calls sess_steps].
  rewrite <- app_assoc. reflexivity.
Qed.

Lemma prediction_turn_run_raises (env : Env) (self : ModelBuilder)
    (predictions features labels : value) (g : Graph) (cs : list Call) (k : nat)
    (e : exn) :
  run_fetches (run_fetch env k) [predictions; features; labels] = Raise e →
  prediction_turn env self predictions features labels (mkWorld g cs k) =
    (Raise e, mkWorld g (cs ++ [SessionRun [predictions; features; labels]]) (S k)).
Proof.
  intros Hr. unfold prediction_turn.
  erewrite bind_raise; [ reflexivity | ].
  unfold sess_run. cbn [graph calls sess_steps]. rewrite Hr. reflexivity.
Qed.

(** [vis_predictions] after the restore and [n] good turns. *)
Lemma vis_predictions_after (env : Env) (self : ModelBuilder) (mode : string)
    (w w1 w2 : World) (features labels : value) (spec : EstimatorSpec)
    (pd fd ld : nat → data) (n fuel : nat) (r : outcome ())
    (cs : list Call) (k : nat) :
  bind_inputs self mode (set_graph empty_graph w) =
    (Ok (Some (features, labels)), w1) →
  get_estimator_spec self features labels PREDICT VNone w1 = (Ok spec, w2) →
  saver_init env (graph w2) = Ok () →
  restore_result env (latest_checkpoint env (model_dir env self)) = Ok () →
  (∀ j, (j < n)%nat → should_stop env j = false) →
  (∀ j, (j < n)%nat →
     run_fetch env j (spec_predictions spec) = Ok (pd j) ∧
     run_fetch env j features = Ok (fd j) ∧ run_fetch env j labels = Ok (ld j) ∧
     ∃ v, vis_prediction_data self (pd j) (fd j) (ld j) = Ok v) →
  while_not_should_stop env fuel
    (prediction_turn env self (spec_predictions spec) features labels)
    (mkWorld (graph w2)
       ((calls w2 ++ [SaverRestore (latest_checkpoint env (model_dir env self))]) ++
        concat (map (turn [spec_predictions spec; features; labels]
                       "vis_prediction_data" (λ k, [pd k; fd k; ld k]))
                    (seq 0 n))) n) =
    (r, mkWorld (graph w2) cs k) →
  vis_predictions env (n + fuel) self mode w =
    (match r with
     | Raise e => on_exit env e
     | _ => r
     end, mkWorld (graph w) cs k).
Proof.
  intros Hbind Hspec Hsaver Hrestore Hgo Hturn Hrest.
  rewrite (vis_predictions_session env _ self mode w w1 w2 features labels
             spec Hbind Hspec Hsaver).
  unfold with_MonitoredSession.
  erewrite bind_ok; [ | apply saver_restore_ok; exact Hrestore ].
  cbn [graph calls sess_steps].
  erewrite (while_not_should_stop_unroll env _ (graph w2)
              (turn [spec_predictions spec; features; labels]
                 "vis_prediction_data" (λ k, [pd k; fd k; ld k]))
              n O fuel).
  - cbn [Nat.add]. rewrite Hrest. unfold on_exit.
    destruct r as [[]|e|]; [ reflexivity | | reflexivity ].
    destruct (exit_suppresses env e); reflexivity.
  - intros j Hj. apply Hgo. exact Hj.
  - intros j cs' Hj. cbn [Nat.add].
    destruct (Hturn j Hj) as (Hp & Hf & Hl & v & Hv).
    apply (prediction_turn_ok env self _ features labels (graph w2) cs' j
             (pd j) (fd j) (ld j) v Hp Hf Hl Hv).
Qed.

(** C7. What the two vis functions do, mode by mode, for a session that
    has batches to give.

    In TRAIN mode (the default): the inputs are the two components of the
    training pipeline; [vis_inputs] runs them and passes each batch to
    [vis_example_data], once per turn, until the session asks to stop;
    [vis_predictions] builds the predictions in PREDICT mode, builds the
    saver, restores from the latest checkpoint under [model_dir], and
    only then loops in the same way with [vis_prediction_data].

    In PREDICT mode: the labels are [None], and [None] is among the
    fetches of the first run.  With a session that rejects this fetch the
    loop ends in its first turn with the session's exception, and neither
    [vis_example_data] nor [vis_prediction_data] is ever called. *)
Theorem vis_functions_by_mode (env : Env) (self : ModelBuilder) (w : World)
    (b : Z) (fuel : nat) :
  params self !! "batch_size" = Some b →
  let ckpt := latest_checkpoint env (model_dir env self) in
  (∀ d g1 s1 s2 n (fd ld : nat → data),
     get_train_dataset self empty_graph = (Ok d, g1) →
     element_shape d = STuple [s1; s2] →
     let pipeline := DBatch b (DRepeat None (DShuffle 10000 d)) in
     let features := next_at pipeline [0%nat] s1 in
     let labels := next_at pipeline [1%nat] s2 in
     (∀ k, (k < n)%nat → should_stop env k = false) →
     should_stop env n = true →
     (∀ k, (k < n)%nat →
        run_fetch env k features = Ok (fd k) ∧ run_fetch env k labels = Ok (ld k)) →
     (n < fuel)%nat →
     ((∀ k, (k < n)%nat → ∃ r, vis_example_data self (fd k) (ld k) = Ok r) →
      vis_inputs env fuel self TRAIN w =
        (Ok (),
         mkWorld (graph w)
           (calls w ++ [Method "get_train_dataset" []] ++
            concat (map (turn [features; labels] "vis_example_data"
                           (λ k, [fd k; ld k])) (seq 0 n)))
           n)) ∧
     (∀ inference g2 predictions g3 (pd : nat → data),
        get_inference self features PREDICT g1 = (Ok inference, g2) →
        get_predictions self inference g2 = (Ok predictions, g3) →
        saver_init env g3 = Ok () →
        restore_result env ckpt = Ok () →
        (∀ k, (k < n)%nat →
           run_fetch env k predictions = Ok (pd k) ∧
           ∃ r, vis_prediction_data self (pd k) (fd k) (ld k) = Ok r) →
        vis_predictions env fuel self TRAIN w =
          (Ok (),
           mkWorld (graph w)
             (calls w ++
              [Method "get_train_dataset" [];
               Method "get_inference" [features; VStr PREDICT];
               Method "get_predictions" [inference];
               SaverRestore ckpt] ++
              concat (map (turn [predictions; features; labels]
                             "vis_prediction_data" (λ k, [pd k; fd k; ld k]))
                          (seq 0 n)))
             n))) ∧
  (∀ d g1 (fd : data) (e : exn),
     get_predict_dataset self empty_graph = (Ok d, g1) →
     let features := make_one_shot_iterator_get_next (DBatch b d) in
     should_stop env 0 = false →
     (0 < fuel)%nat →
     run_fetch env 0 features = Ok fd →
     run_fetch env 0 VNone = Raise e →
     vis_inputs env fuel self PREDICT w =
       (on_exit env e,
        mkWorld (graph w)
          (calls w ++ [Method "get_predict_dataset" [];
                       SessionRun [features; VNone]])
          1) ∧
     (∀ inference g2 predictions g3 (pd : data),
        get_inference self features PREDICT g1 = (Ok inference, g2) →
        get_predictions self inference g2 = (Ok predictions, g3) →
        saver_init env g3 = Ok () →
        restore_result env ckpt = Ok () →
        run_fetch env 0 predictions = Ok pd →
        vis_predictions env fuel self PREDICT w =
          (on_exit env e,
           mkWorld (graph w)
             (calls w ++
              [Method "get_predict_dataset" [];
               Method "get_inference" [features; VStr PREDICT];
               Method "get_predictions" [inference];
               SaverRestore ckpt;
               SessionRun [predictions; features; VNone]])
             1))).
Proof.
  intros Hb ckpt. split.
  - intros d g1 s1 s2 n fd ld Hd Hs pipeline features labels Hgo Hstop Hrun Hfuel.
    pose proof (bind_inputs_TRAIN self (set_graph empty_graph w) b d g1 s1 s2
                  Hb Hd Hs) as Hbind.
    fold pipeline in Hbind. fold features labels in Hbind.
    replace fuel with (n + S (fuel - S n))%nat by lia.
    split.
    + intros Hvis.
      erewrite (vis_inputs_after env self TRAIN w _ features labels fd ld n
                  (S (fuel - S n)) (Ok ())); cycle 1.
      * exact Hbind.
      * exact Hgo.
      * intros k Hk. destruct (Hrun k Hk) as [Hf Hl].
        split; [ exact Hf | split; [ exact Hl | apply Hvis; exact Hk ] ].
      * apply while_not_should_stop_stops. exact Hstop.
      * cbn [calls set_graph]. rewrite <- app_assoc. reflexivity.
    + intros inference g2 predictions g3 pd Hi Hp Hsaver Hrestore Hpred.
      erewrite (vis_predictions_after env self TRAIN w _ _ features labels _
                  pd fd ld n (S (fuel - S n)) (Ok ())); cycle 1.
      * exact Hbind.
      * eapply (get_estimator_spec_PREDICT self _ _ VNone _ inference
                  predictions g2 g3); [ exact Hi | exact Hp ].
      * exact Hsaver.
      * exact Hrestore.
      * exact Hgo.
      * intros k Hk. destruct (Hrun k Hk) as [Hf Hl].
        destruct (Hpred k Hk) as [Hq Hv]. cbn [spec_predictions]. auto.
      * apply while_not_should_stop_stops. exact Hstop.
      * cbn [calls set_graph sess_steps spec_predictions].
        rewrite <- !app_assoc. reflexivity.
  - intros d g1 fd e Hd features Hgo Hfuel Hf Hnone.
    pose proof (bind_inputs_PREDICT self (set_graph empty_graph w) b d g1
                  Hb Hd) as Hbind.
    fold features in Hbind.
    replace fuel with (0 + S (fuel - 1))%nat by lia.
    split.
    + erewrite (vis_inputs_after env self PREDICT w _ features VNone
                  (λ _, fd) (λ _, fd) 0 (S (fuel - 1)) (Raise e)); cycle 1.
      * exact Hbind.
      * intros k Hk. lia.
      * intros k Hk. lia.
      * apply while_not_should_stop_raises; [ exact Hgo | ].
        apply example_turn_run_raises. cbn [run_fetches].
        rewrite Hf, Hnone. reflexivity.
      * cbn [calls set_graph map seq concat]. rewrite app_nil_r, <- app_assoc.
        reflexivity.
    + intros inference g2 predictions g3 pd Hi Hp Hsaver Hrestore Hq.
      erewrite (vis_predictions_after env self PREDICT w _ _ features VNone _
                  (λ _, pd) (λ _, fd) (λ _, fd) 0 (S (fuel - 1)) (Raise e));
        cycle 1.
      * exact Hbind.
      * eapply (get_estimator_spec_PREDICT self _ _ VNone _ inference
                  predictions g2 g3); [ exact Hi | exact Hp ].
      * exact Hsaver.
      * exact Hrestore.
      * intros k Hk. lia.
      * intros k Hk. lia.
      * apply while_not_should_stop_raises; [ exact Hgo | ].
        apply prediction_turn_run_raises. cbn [run_fetches spec_predictions].
        rewrite Hq, Hf, Hnone. reflexivity.
      * cbn [calls set_graph sess_steps spec_predictions map seq concat].
        rewrite app_nil_r, <- !app_assoc. reflexivity.
Qed.

Lemma vis_functions_by_mode_witness :
  let none_fetch := TypeError "Fetch argument None has invalid type" in
  (∃ w', vis_inputs (Example.env 2) 5 Example.builder TRAIN Example.world =
           (Ok (), w') ∧ sess_steps w' = 2%nat) ∧
  (∃ w', vis_predictions (Example.env 2) 5 Example.builder TRAIN Example.world =
           (Ok (), w') ∧ sess_steps w' = 2%nat) ∧
  (∃ w', vis_inputs (Example.env 2) 5 Example.builder PREDICT Example.world =
           (Raise none_fetch, w') ∧
         Forall (λ c, call_name c ≠ "vis_example_data") (calls w')) ∧
  (∃ w', vis_predictions (Example.env 2) 5 Example.builder PREDICT Example.world =
           (Raise none_fetch, w') ∧
         Forall (λ c, call_name c ≠ "vis_prediction_data") (calls w')).
Proof.
  intros none_fetch.
  destruct (vis_functions_by_mode (Example.env 2) Example.builder Example.world
              32 5 eq_refl) as [HT HP].
  set (train := DSource "train_examples" (STuple [SLeaf; SLeaf])).
  set (pipeline := DBatch 32 (DRepeat None (DShuffle 10000 train))).
  assert (Hgo : ∀ k, (k < 2)%nat → should_stop (Example.env 2) k = false).
  { intros k Hk. destruct k as [|[|k]]; [ reflexivity | reflexivity | lia ]. }
  assert (Hrun : ∀ k, (k < 2)%nat →
            run_fetch (Example.env 2) k (next_at pipeline [0%nat] SLeaf) =
              Ok (DataArray k (TNext pipeline [0%nat])) ∧
            run_fetch (Example.env 2) k (next_at pipeline [1%nat] SLeaf) =
              Ok (DataArray k (TNext pipeline [1%nat]))).
  { intros k Hk. split; reflexivity. }
  destruct (HT train empty_graph SLeaf SLeaf 2%nat
              (λ k, DataArray k (TNext pipeline [0%nat]))
              (λ k, DataArray k (TNext pipeline [1%nat]))
              eq_refl eq_refl Hgo eq_refl Hrun ltac:(lia)) as [Hin Hpred].
  destruct (HP (DSource "predict_examples" (SDict [("x", SLeaf)])) empty_graph
              (DataDict [("x", DataArray 0 (TNext (DBatch 32 (DSource
                 "predict_examples" (SDict [("x", SLeaf)]))) [0%nat]))])
              none_fetch eq_refl eq_refl ltac:(lia) eq_refl eq_refl)
    as [Hpin Hppred].
  split; [ | split; [ | split ] ].
  - eexists. split.
    + apply Hin. intros k Hk. eexists. reflexivity.
    + reflexivity.
  - eexists. split.
    + eapply (Hpred _ _ _ _ (λ k, DataDict [("y", DataArray k
                 (TApply "dense" [TNext pipeline [0%nat]]))])).
      * reflexivity.
      * reflexivity.
      * reflexivity.
      * reflexivity.
      * intros k Hk. split; [ reflexivity | eexists; reflexivity ].
    + reflexivity.
  - eexists. split.
    + exact Hpin.
    + cbn. repeat constructor; discriminate.
  - eexists. split.
    + eapply Hppred.
      * reflexivity.
      * reflexivity.
      * reflexivity.
      * reflexivity.
      * reflexivity.
    + cbn. repeat constructor; discriminate.
Defined.
